(** * Task contexts of the DART tasking runtime

    A shallow embedding of [dart_tasking_context.c]: the per-thread pool of
    context blocks, the entry trampoline and the create / release / invoke /
    swap / cleanup operations, together with the properties the
    specification states about them.

    Blocks live in a heap indexed by their address; the pool is the linked
    list that starts at [thread->ctxlist] and follows the [next] fields, as
    in the C code, so that aliasing between a context handle and a pooled
    block is visible in the model. *)

From Stdlib Require Import ZArith Lia Bool.
From stdpp Require Import base gmap strings list.

Local Open Scope Z_scope.

(** ** Machine integers *)

(** [size_t] is an unsigned 64-bit integer: every operation is wrapped. *)
Definition SIZE_MOD : Z := 2 ^ 64.
Definition wrap64 (x : Z) : Z := x mod SIZE_MOD.

(** ** Constants of the module *)

Definition DEFAULT_TASK_STACK_SIZE : Z := Z.shiftl 1 14.
Definition PER_THREAD_CTX_STORE : Z := 10.
Definition STACK_GUARD : Z := 0xDEADBEEF.
Definition SIZEOF_UINT64 : Z := 8.

(** ** Data model *)

(** The part of [ucontext_t] the module writes: the stack descriptor, the
    successor link and whether [makecontext] has pointed the context at the
    entry trampoline. *)
Record ucontext_t := {
  uc_link : Z;
  ss_sp : Z;
  ss_size : Z;
  ss_flags : Z;
  uc_entry : bool
}.

(** [context_t]: the saved state plus the pending entry function and its
    argument, both opaque pointers with [NULL = 0]. *)
Record context_t := {
  ctx_uc : ucontext_t;
  ctx_fn : Z;
  ctx_arg : Z
}.

(** [struct context_list_s]. A [context_t*] handle is the address of the
    block that embeds it (the code recovers the block with [offsetof]), so
    handles and blocks share one address space in the model. *)
Record context_list_s := {
  cl_next : option Z;
  cl_ctx : context_t;
  cl_stack : Z;
  cl_length : Z;
  cl_ub_guard : Z;
  cl_size : Z
}.

Definition NULL : Z := 0.

Inductive dart_ret_t := DART_OK | DART_ERR_OTHER.

(** What the module makes observable outside its own data. *)
Inductive event :=
  | EvWarn (msg : string)
  | EvError (msg : string)
  | EvAlloc (addr size : Z)
  | EvFree (addr : Z)
  | EvMprotect (addr : Z) (accessible : bool).

(** Build-time switches and the values the platform provides. *)
Record config := {
  USE_UCONTEXT : bool;
  DART_DEBUG : bool;
  USE_MPROTECT : bool;
  USE_MMAP : bool;
  sizeof_context_list_t : Z;
  sysconf_pagesize : Z;
  env_task_stacksize : Z;
  heap_limit : Z;
  mprotect_ret : Z -> Z
}.

(** The two file-level statics, the calling thread's [ctxlist], the blocks,
    the 64-bit words of stack memory the canaries live in, the allocator's
    break and the log. *)
Record state := {
  task_stack_size : Z;
  page_size : Z;
  ctxlist : option Z;
  heap : gmap Z context_list_s;
  stackmem : gmap Z Z;
  brk : Z;
  log : list event
}.

Definition initial_state : state :=
  {| task_stack_size := DEFAULT_TASK_STACK_SIZE;
     page_size := 0;
     ctxlist := None;
     heap := ∅;
     stackmem := ∅;
     brk := 4096;
     log := [] |}.

(** Field updates. *)
Definition set_task_stack_size (v : Z) (s : state) : state :=
  {| task_stack_size := v; page_size := page_size s; ctxlist := ctxlist s;
     heap := heap s; stackmem := stackmem s; brk := brk s; log := log s |}.
Definition set_page_size (v : Z) (s : state) : state :=
  {| task_stack_size := task_stack_size s; page_size := v; ctxlist := ctxlist s;
     heap := heap s; stackmem := stackmem s; brk := brk s; log := log s |}.
Definition set_ctxlist (v : option Z) (s : state) : state :=
  {| task_stack_size := task_stack_size s; page_size := page_size s; ctxlist := v;
     heap := heap s; stackmem := stackmem s; brk := brk s; log := log s |}.
Definition set_heap (v : gmap Z context_list_s) (s : state) : state :=
  {| task_stack_size := task_stack_size s; page_size := page_size s;
     ctxlist := ctxlist s; heap := v; stackmem := stackmem s; brk := brk s;
     log := log s |}.
Definition set_stackmem (v : gmap Z Z) (s : state) : state :=
  {| task_stack_size := task_stack_size s; page_size := page_size s;
     ctxlist := ctxlist s; heap := heap s; stackmem := v; brk := brk s;
     log := log s |}.
Definition set_brk (v : Z) (s : state) : state :=
  {| task_stack_size := task_stack_size s; page_size := page_size s;
     ctxlist := ctxlist s; heap := heap s; stackmem := stackmem s; brk := v;
     log := log s |}.
Definition emit (e : event) (s : state) : state :=
  {| task_stack_size := task_stack_size s; page_size := page_size s;
     ctxlist := ctxlist s; heap := heap s; stackmem := stackmem s; brk := brk s;
     log := e :: log s |}.

Definition set_next (v : option Z) (b : context_list_s) : context_list_s :=
  {| cl_next := v; cl_ctx := cl_ctx b; cl_stack := cl_stack b;
     cl_length := cl_length b; cl_ub_guard := cl_ub_guard b; cl_size := cl_size b |}.
Definition set_length (v : Z) (b : context_list_s) : context_list_s :=
  {| cl_next := cl_next b; cl_ctx := cl_ctx b; cl_stack := cl_stack b;
     cl_length := v; cl_ub_guard := cl_ub_guard b; cl_size := cl_size b |}.
Definition set_ctx (v : context_t) (b : context_list_s) : context_list_s :=
  {| cl_next := cl_next b; cl_ctx := v; cl_stack := cl_stack b;
     cl_length := cl_length b; cl_ub_guard := cl_ub_guard b; cl_size := cl_size b |}.
Definition set_fn_arg (f a : Z) (c : context_t) : context_t :=
  {| ctx_uc := ctx_uc c; ctx_fn := f; ctx_arg := a |}.

(** ** Outcomes

    An operation returns normally ([Done]), aborts the process through the
    assertion machinery ([Abort]), hands control to another context without
    coming back ([Switched]), or dereferences a pointer that names no block
    ([Fault], undefined behaviour in C). [OutOfFuel] is the model running
    out of loop iterations, not a behaviour of the program. *)
Inductive outcome (A : Type) :=
  | Done (a : A) (s : state)
  | Abort (msg : string) (s : state)
  | Switched (target : Z) (s : state)
  | Fault
  | OutOfFuel.
Arguments Done {A} a s.
Arguments Abort {A} msg s.
Arguments Switched {A} target s.
Arguments Fault {A}.
Arguments OutOfFuel {A}.

Definition M (A : Type) : Type := state -> outcome A.

#[global] Instance M_ret : MRet M := fun A (a : A) s => Done a s.
#[global] Instance M_bind : MBind M := fun A B (k : A -> M B) (m : M A) s =>
  match m s with
  | Done a s' => k a s'
  | Abort msg s' => Abort msg s'
  | Switched t s' => Switched t s'
  | Fault => Fault
  | OutOfFuel => OutOfFuel
  end.

Definition get : M state := fun s => Done s s.
Definition modify (f : state -> state) : M unit := fun s => Done tt (f s).
Definition abort {A} (msg : string) : M A := fun s => Abort msg s.
Definition fault {A} : M A := fun _ => Fault.

(** [p->field] reads and [p->field = v] writes go through the heap. *)
Definition load (p : Z) : M context_list_s :=
  fun s => match heap s !! p with Some b => Done b s | None => Fault end.
Definition store (p : Z) (f : context_list_s -> context_list_s) : M unit :=
  fun s =>
    match heap s !! p with
    | Some b => Done tt (set_heap (<[p := f b]> (heap s)) s)
    | None => Fault
    end.

(** ** Page size and size adjustment *)

Definition dart__tasking__context_pagesize (cfg : config) : Z :=
  wrap64 (sysconf_pagesize cfg).

(** [(size + mask) & ~mask] on [size_t]. *)
Definition dart__tasking__context_adjust_size (pagesz size : Z) : Z :=
  let mask := wrap64 (pagesz - 1) in
  Z.land (wrap64 (size + mask)) (wrap64 (Z.lnot mask)).

(** ** Initialisation *)

(** [env_stack_size] is a [size_t], so in [env_stack_size > -1] the [-1] is
    converted to [size_t] before the comparison. *)
Definition dart__tasking__context_init (cfg : config) : M unit :=
  modify (set_page_size (dart__tasking__context_pagesize cfg));;
  let env_stack_size := wrap64 (env_task_stacksize cfg) in
  (if env_stack_size >? wrap64 (-1)
   then modify (set_task_stack_size env_stack_size)
   else mret tt);;
  s ← get;
  if task_stack_size s <? page_size s
  then modify (set_task_stack_size (page_size s))
  else mret tt.

(** ** Collaborators outside the module *)

(** Modelled from the spec: the macros [DART_STACK_PUSH] and
    [DART_STACK_POP] are not part of the sources at hand. The specification
    describes [thread->ctxlist] as a LIFO singly linked collection threaded
    through the blocks' forward link: push links the element in front of the
    head, pop hands out the head (or [NULL] on an empty list) and advances
    the head to its successor. *)
Definition DART_STACK_PUSH (elem : Z) : M unit :=
  s ← get;
  store elem (set_next (ctxlist s));;
  modify (set_ctxlist (Some elem)).

Definition DART_STACK_POP : M (option Z) :=
  s ← get;
  match ctxlist s with
  | None => mret None
  | Some elem =>
      b ← load elem;
      modify (set_ctxlist (cl_next b));;
      mret (Some elem)
  end.

(** Modelled from the spec: the assertion macros are not part of the
    sources at hand. The specification describes them as a fatal-abort
    primitive with a formatted message. *)
Definition DART_ASSERT_MSG (cond : bool) (msg : string) : M unit :=
  if cond then mret tt else abort msg.

(** Modelled from the spec: the logging macros are not part of the sources
    at hand; they are a log sink that does not alter control flow. *)
Definition DART_LOG_WARN (msg : string) : M unit := modify (emit (EvWarn msg)).
Definition DART_LOG_ERROR (msg : string) : M unit := modify (emit (EvError msg)).

(** The system allocator ([posix_memalign], or [mmap] with [USE_MMAP]), as
    a bump allocator over [brk .. heap_limit]: the result is aligned and
    fresh, and [None] stands for the failure value when memory is
    exhausted. The new block's bytes read as zero; the module writes every
    field before it reads it. *)
Definition blank_ucontext : ucontext_t :=
  {| uc_link := 0; ss_sp := 0; ss_size := 0; ss_flags := 0; uc_entry := false |}.
Definition blank_block : context_list_s :=
  {| cl_next := None;
     cl_ctx := {| ctx_uc := blank_ucontext; ctx_fn := NULL; ctx_arg := NULL |};
     cl_stack := 0; cl_length := 0; cl_ub_guard := 0; cl_size := 0 |}.

Definition align_up (align x : Z) : Z :=
  if align <=? 0 then x else ((x + align - 1) / align) * align.

Definition sys_alloc (cfg : config) (align size : Z) : M (option Z) :=
  fun s =>
    let p := align_up align (brk s) in
    if p + size <=? heap_limit cfg
    then Done (Some p)
           (emit (EvAlloc p size)
              (set_brk (p + Z.max size 1)
                 (set_heap (<[p := blank_block]> (heap s)) s)))
    else Done None s.

Definition sys_free (p : Z) : M unit :=
  load p;;
  s ← get;
  modify (set_heap (delete p (heap s)));;
  modify (emit (EvFree p)).

(** Stack memory, read and written as [uint64_t] words. *)
Definition read_word (s : state) (addr : Z) : Z :=
  default 0 (stackmem s !! addr).
Definition write_word (addr v : Z) : M unit :=
  s ← get;
  modify (set_stackmem (<[addr := v]> (stackmem s))).

(** ** Allocation and release of a block *)

Definition dart__tasking__context_allocate (cfg : config) : M Z :=
  s ← get;
  let body :=
    wrap64 (dart__tasking__context_adjust_size (page_size s) (sizeof_context_list_t cfg)
            + dart__tasking__context_adjust_size (page_size s) (task_stack_size s)) in
  let size := if USE_MPROTECT cfg then wrap64 (body + page_size s) else body in
  r ← sys_alloc cfg (page_size s) size;
  match r with
  | None =>
      abort (if USE_MMAP cfg then "Failed to mmap new stack!"
             else "posix_memalign did not return 0")
  | Some p =>
      (if USE_MMAP cfg
       then store p (fun b =>
              {| cl_next := cl_next b; cl_ctx := cl_ctx b; cl_stack := cl_stack b;
                 cl_length := cl_length b; cl_ub_guard := cl_ub_guard b;
                 cl_size := size |})
       else mret tt);;
      store p (fun b =>
        {| cl_next := None; cl_ctx := cl_ctx b;
           cl_stack := wrap64 (p + page_size s);
           cl_length := 0; cl_ub_guard := cl_ub_guard b; cl_size := cl_size b |});;
      (if USE_MPROTECT cfg
       then
         let guard := wrap64 (wrap64 (p + page_size s) + task_stack_size s) in
         store p (fun b =>
           {| cl_next := cl_next b; cl_ctx := cl_ctx b; cl_stack := cl_stack b;
              cl_length := cl_length b; cl_ub_guard := guard;
              cl_size := cl_size b |});;
         modify (emit (EvMprotect guard false));;
         if mprotect_ret cfg guard =? 0 then mret tt
         else DART_LOG_WARN "Failed to mprotect upper bound page"
       else mret tt);;
      mret p
  end.

Definition dart__tasking__context_free (cfg : config) (ctxlist : Z) : M unit :=
  (if USE_MPROTECT cfg
   then
     b ← load ctxlist;
     modify (emit (EvMprotect (cl_ub_guard b) true));;
     if mprotect_ret cfg (cl_ub_guard b) =? 0 then mret tt
     else DART_LOG_WARN "Failed to mprotect upper bound page"
   else mret tt);;
  sys_free ctxlist.

(** ** Lifecycle operations *)

Definition getcontext (p : Z) : M unit :=
  store p (fun b => set_ctx
    {| ctx_uc := {| uc_link := uc_link (ctx_uc (cl_ctx b));
                    ss_sp := ss_sp (ctx_uc (cl_ctx b));
                    ss_size := ss_size (ctx_uc (cl_ctx b));
                    ss_flags := ss_flags (ctx_uc (cl_ctx b));
                    uc_entry := false |};
       ctx_fn := ctx_fn (cl_ctx b); ctx_arg := ctx_arg (cl_ctx b) |} b).

(** [makecontext(&res->ctx, &dart__tasking__context_entry, 0, 0)]. *)
Definition makecontext (p : Z) : M unit :=
  store p (fun b => set_ctx
    {| ctx_uc := {| uc_link := uc_link (ctx_uc (cl_ctx b));
                    ss_sp := ss_sp (ctx_uc (cl_ctx b));
                    ss_size := ss_size (ctx_uc (cl_ctx b));
                    ss_flags := ss_flags (ctx_uc (cl_ctx b));
                    uc_entry := true |};
       ctx_fn := ctx_fn (cl_ctx b); ctx_arg := ctx_arg (cl_ctx b) |} b).

Definition dart__tasking__context_create (cfg : config) (fn arg : Z)
  : M (option Z) :=
  if USE_UCONTEXT cfg then
    thread ← get;
    res ← match ctxlist thread with
          | Some head =>
              store head (set_length 0);;
              b ← load head;
              modify (set_ctxlist (cl_next b));;
              mret (Some head)
          | None => mret None
          end;
    res ← match res with
          | Some r => mret r
          | None =>
              p ← dart__tasking__context_allocate cfg;
              store p (set_next None);;
              getcontext p;;
              s ← get;
              store p (fun b => set_ctx
                {| ctx_uc := {| uc_link := NULL;
                                ss_sp := cl_stack b;
                                ss_size := task_stack_size s;
                                ss_flags := 0;
                                uc_entry := uc_entry (ctx_uc (cl_ctx b)) |};
                   ctx_fn := ctx_fn (cl_ctx b);
                   ctx_arg := ctx_arg (cl_ctx b) |} b);;
              mret p
          end;
    (if DART_DEBUG cfg
     then
       b ← load res;
       s ← get;
       let stack := ss_sp (ctx_uc (cl_ctx b)) in
       write_word stack STACK_GUARD;;
       write_word (wrap64 (wrap64 (stack + task_stack_size s) - SIZEOF_UINT64))
                  STACK_GUARD
     else mret tt);;
    makecontext res;;
    store res (fun b => set_ctx (set_fn_arg fn arg (cl_ctx b)) b);;
    mret (Some res)
  else mret None.

Definition stack_overflow_warning : string :=
  "Possible TASK STACK OVERFLOW detected! Consider changing the stack size via DART_TASK_STACKSIZE!".

Definition no_ucontext (func : string) : string :=
  "Cannot call " +:+ func +:+ " without UCONTEXT support!".

(** The [DART_DEBUG] block at the start of [release]. *)
Definition check_stack_guards (cfg : config) (ctx : Z) : M unit :=
  if DART_DEBUG cfg
  then
    b ← load ctx;
    s ← get;
    let stack := ss_sp (ctx_uc (cl_ctx b)) in
    if negb (read_word s stack =? STACK_GUARD)
       && negb (read_word s (wrap64 (wrap64 (stack + task_stack_size s)
                                     - SIZEOF_UINT64)) =? STACK_GUARD)
    then DART_LOG_WARN stack_overflow_warning
    else mret tt
  else mret tt.

(** [length] is an [int]; in the branch that increments it the value is 0
    or copied from a head whose [length] is at most
    [PER_THREAD_CTX_STORE], so the increment cannot overflow. *)
Definition dart__tasking__context_release (cfg : config) (ctx : Z) : M unit :=
  if USE_UCONTEXT cfg then
    check_stack_guards cfg ctx;;
    thread ← get;
    full ← match ctxlist thread with
           | None => mret false
           | Some head => b ← load head; mret (cl_length b >? PER_THREAD_CTX_STORE)
           end;
    if (full : bool) then
      dart__tasking__context_free cfg ctx
    else
      len ← match ctxlist thread with
            | None => mret 0
            | Some head => b ← load head; mret (cl_length b)
            end;
      store ctx (set_length len);;
      store ctx (fun b => set_length (cl_length b + 1) b);;
      DART_STACK_PUSH ctx
  else DART_ASSERT_MSG false (no_ucontext "dart__tasking__context_release").

Definition out_of_fuel {A} : M A := fun _ => OutOfFuel.

(** The [while (thread->ctxlist)] loop, with a bound on its iterations. *)
Fixpoint cleanup_loop (cfg : config) (fuel : nat) : M unit :=
  mbind (M := M) (fun thread : state =>
    match ctxlist thread with
    | None => mret tt
    | Some _ =>
        match fuel with
        | O => out_of_fuel
        | S fuel' =>
            p ← DART_STACK_POP;
            match p with
            | Some ctxlist => dart__tasking__context_free cfg ctxlist
            | None => fault
            end;;
            cleanup_loop cfg fuel'
        end
    end) get.

Definition dart__tasking__context_cleanup (cfg : config) (fuel : nat) : M unit :=
  if USE_UCONTEXT cfg then cleanup_loop cfg fuel
  else DART_ASSERT_MSG false (no_ucontext "dart__tasking__context_cleanup").

(** The operations that transfer control are parameterised by the platform
    primitives they end in and by the task bodies they start. *)
Section Switching.

(** [setcontext] and [swapcontext] of the C library: the integer is the
    value the call returns, when it returns. *)
Variable setcontext : Z -> M Z.
Variable swapcontext : Z -> Z -> M Z.
(** [fn(arg)] for an entry function pointer [fn]: [Done] when the task
    body returns to its caller. *)
Variable call : Z -> Z -> M unit.

(** Lines up to and including the clearing of [fn] and [arg]. *)
Definition context_entry_fetch : M (Z * Z) :=
  ctxlist ← DART_STACK_POP;
  DART_ASSERT_MSG (bool_decide (ctxlist ≠ None)) "Assertion failed: ctxlist != NULL";;
  match ctxlist with
  | None => fault
  | Some p =>
      b ← load p;
      let fn := ctx_fn (cl_ctx b) in
      let arg := ctx_arg (cl_ctx b) in
      store p (fun b => set_ctx (set_fn_arg NULL NULL (cl_ctx b)) b);;
      mret (fn, arg)
  end.

Definition dart__tasking__context_entry : M unit :=
  '(fn, arg) ← context_entry_fetch;
  call fn arg;;
  DART_ASSERT_MSG false "task context invocation function returned!".

Definition dart__tasking__context_invoke (cfg : config) (ctx : Z) : M unit :=
  if USE_UCONTEXT cfg then
    b ← load ctx;
    (if negb (ctx_fn (cl_ctx b) =? NULL)
     then DART_STACK_PUSH ctx
     else mret tt);;
    setcontext ctx;;
    mret tt
  else DART_ASSERT_MSG false (no_ucontext "dart__tasking__context_invoke").

(** What [swap] does before it calls [swapcontext]. *)
Definition context_swap_prepare (old_ctx new_ctx : Z) : M unit :=
  nb ← load new_ctx;
  (if negb (ctx_fn (cl_ctx nb) =? NULL)
   then DART_STACK_PUSH new_ctx
   else mret tt);;
  ob ← load old_ctx;
  (if negb (ctx_fn (cl_ctx ob) =? NULL)
   then store old_ctx (fun b => set_ctx (set_fn_arg NULL NULL (cl_ctx b)) b)
   else mret tt).

(** What [swap] makes of the value [swapcontext] returned. *)
Definition context_swap_result (r : Z) : M dart_ret_t :=
  if r =? -1 then
    DART_LOG_ERROR "Call to swapcontext failed!";;
    mret DART_ERR_OTHER
  else mret DART_OK.

Definition dart__tasking__context_swap (cfg : config) (old_ctx new_ctx : Z)
  : M dart_ret_t :=
  if USE_UCONTEXT cfg then
    context_swap_prepare old_ctx new_ctx;;
    r ← swapcontext old_ctx new_ctx;
    context_swap_result r
  else
    DART_ASSERT_MSG false (no_ucontext "dart__tasking__context_swap");;
    fault.

End Switching.

(** ** The pool as a list *)

(** Follow [next] from [p] for at most [fuel] links. *)
Fixpoint pool_walk (fuel : nat) (h : gmap Z context_list_s) (p : option Z)
  : option (list Z) :=
  match p with
  | None => Some []
  | Some a =>
      match fuel with
      | O => None
      | S fuel' =>
          match h !! a with
          | None => None
          | Some b => cons a <$> pool_walk fuel' h (cl_next b)
          end
      end
  end.

(** [pool_rep h p l]: the list that starts at [p] consists of the blocks at
    the addresses [l], in order, and each block's [length] field counts the
    blocks from itself down to the bottom of the pool. *)
Fixpoint pool_rep (h : gmap Z context_list_s) (p : option Z) (l : list Z) : Prop :=
  match l with
  | [] => p = None
  | a :: l' =>
      p = Some a /\
      exists b, h !! a = Some b /\
                cl_length b = Z.of_nat (length l) /\
                pool_rep h (cl_next b) l'
  end.

Arguments pool_rep : simpl never.

Definition pool_inv (s : state) (l : list Z) : Prop :=
  pool_rep (heap s) (ctxlist s) l.

(** The [length] field of the block at the head of the pool; 0 for an
    empty pool. *)
Definition head_length (s : state) : Z :=
  match ctxlist s with
  | None => 0
  | Some a => match heap s !! a with Some b => cl_length b | None => 0 end
  end.

Definition is_free (e : event) : bool :=
  match e with EvFree _ => true | _ => false end.
Definition is_alloc (e : event) : bool :=
  match e with EvAlloc _ _ => true | _ => false end.
Definition is_warn (e : event) : bool :=
  match e with EvWarn _ => true | _ => false end.

Definition count_free (l : list event) : nat := length (List.filter is_free l).
Definition count_alloc (l : list event) : nat := length (List.filter is_alloc l).
Definition count_warn (l : list event) : nat := length (List.filter is_warn l).

(** ** Runs of the pool operations

    A scheduler on one thread creates contexts, releases contexts it holds
    and, at shutdown, cleans up. [run_op] tracks the handles the scheduler
    holds: a handle is held from the [create] that returned it until its
    [release]. *)
Inductive pool_op :=
  | OpCreate (fn arg : Z)
  | OpRelease (ctx : Z)
  | OpCleanup.

Definition run_op (cfg : config) (op : pool_op) (c : state * list Z)
  : option (state * list Z) :=
  let '(s, held) := c in
  match op with
  | OpCreate fn arg =>
      match dart__tasking__context_create cfg fn arg s with
      | Done (Some a) s' => Some (s', a :: held)
      | Done None s' => Some (s', held)
      | _ => None
      end
  | OpRelease ctx =>
      if bool_decide (ctx ∈ held) then
        match dart__tasking__context_release cfg ctx s with
        | Done _ s' => Some (s', List.filter (fun a => negb (a =? ctx)) held)
        | _ => None
        end
      else None
  | OpCleanup =>
      match dart__tasking__context_cleanup cfg (size (heap s)) s with
      | Done _ s' => Some (s', held)
      | _ => None
      end
  end.

Fixpoint run_ops (cfg : config) (ops : list pool_op) (c : state * list Z)
  : option (state * list Z) :=
  match ops with
  | [] => Some c
  | op :: ops' =>
      match run_op cfg op c with
      | Some c' => run_ops cfg ops' c'
      | None => None
      end
  end.

(** The number of blocks in the pool, when the list is well formed. *)
Definition pool_size (s : state) : option nat :=
  length <$> pool_walk (size (heap s)) (heap s) (ctxlist s).

(** The invariant of a run: the pool is a well-formed list of at most
    eleven blocks that carry their depth in [length], and every handle the
    scheduler holds names a block of the heap that is not in the pool. *)
Definition run_inv (c : state * list Z) : Prop :=
  exists l, pool_inv c.1 l /\
            (length l <= 11)%nat /\
            forall a, a ∈ c.2 -> (a ∉ l) /\ is_Some (heap c.1 !! a).


(** ** Concrete configurations and runs *)

(** A diagnostic build with ucontext support, heap-allocated stacks, 4 KiB
    pages and [env] as the configured stack size. *)
Definition example_config (env : Z) : config :=
  {| USE_UCONTEXT := true; DART_DEBUG := true; USE_MPROTECT := false;
     USE_MMAP := false; sizeof_context_list_t := 1000;
     sysconf_pagesize := 4096; env_task_stacksize := env;
     heap_limit := 2 ^ 30; mprotect_ret := fun _ => 0 |}.

(** The state in which [dart__tasking__context_init] leaves the module. *)
Definition state_after_init (cfg : config) : state :=
  match dart__tasking__context_init cfg initial_state with
  | Done _ s => s
  | _ => initial_state
  end.

(** A build without ucontext support. *)
Definition no_ucontext_config : config :=
  {| USE_UCONTEXT := false; DART_DEBUG := false; USE_MPROTECT := false;
     USE_MMAP := false; sizeof_context_list_t := 1000;
     sysconf_pagesize := 4096; env_task_stacksize := -1;
     heap_limit := 2 ^ 30; mprotect_ret := fun _ => 0 |}.

(** Simple instances of the platform primitives: a [setcontext] that
    transfers control, a [swapcontext] that comes back with a given return
    value, and a task body that returns. *)
Definition setcontext_transfers : Z -> M Z := fun target s => Switched target s.
Definition swapcontext_returns (r : Z) : Z -> Z -> M Z := fun _ _ s => Done r s.
Definition task_returns : Z -> Z -> M unit := fun _ _ s => Done tt s.

(** A block whose stack starts at 8192, and a thread whose list holds one
    such block, at address 4096, with pending entry function 7 and
    argument 8. *)
Definition one_block (fn arg : Z) (len : Z) (nxt : option Z) : context_list_s :=
  {| cl_next := nxt;
     cl_ctx := {| ctx_uc := {| uc_link := 0; ss_sp := 8192; ss_size := 16384;
                               ss_flags := 0; uc_entry := true |};
                  ctx_fn := fn; ctx_arg := arg |};
     cl_stack := 8192; cl_length := len; cl_ub_guard := 0; cl_size := 0 |}.

Definition one_pooled_state : state :=
  {| task_stack_size := 16384; page_size := 4096; ctxlist := Some 4096;
     heap := {[ 4096 := one_block 7 8 1 None ]};
     stackmem := ∅; brk := 4096 + 20480; log := [] |}.

(** Two contexts held by the scheduler, outside the pool; neither has been
    entered yet. *)
Definition two_fresh_state : state :=
  {| task_stack_size := 16384; page_size := 4096; ctxlist := None;
     heap := {[ 4096 := one_block 7 8 0 None; 24576 := one_block 9 10 0 None ]};
     stackmem := ∅; brk := 4096 + 2 * 20480; log := [] |}.

(** [n] contexts created on a freshly initialised thread of the example
    build sit at these addresses: one header page and four stack pages
    each, from the first page on. *)
Definition block_addrs (n : nat) : list Z :=
  List.map (fun i => 4096 + 20480 * Z.of_nat i) (seq 0 n).

(** Create [n] contexts, then release all of them. *)
Definition create_then_release (n : nat) : option (state * list Z) :=
  run_ops (example_config (-1))
    (repeat (OpCreate 7 8) n ++ List.map OpRelease (block_addrs n))
    (state_after_init (example_config (-1)), []).

(** A mixed run: two creates, a release, a create that reuses the pooled
    block, and two more releases. *)
Definition mixed_ops : list pool_op :=
  [OpCreate 7 8; OpCreate 9 10; OpRelease 4096; OpCreate 11 12;
   OpRelease 24576; OpRelease 4096].

(** The mixed run continued: a cleanup, two creates on the emptied pool
    and the release of the first of the two. *)
Definition mixed_ops_with_cleanup : list pool_op :=
  mixed_ops ++ [OpCleanup; OpCreate 13 14; OpCreate 15 16; OpRelease 45056].

(** A task body overwriting the sentinel at the lowest, respectively the
    highest, address of its stack. *)
Definition overwrite_low (ctx : Z) : M unit :=
  b ← load ctx;
  write_word (ss_sp (ctx_uc (cl_ctx b))) 0.
Definition overwrite_high (ctx : Z) : M unit :=
  b ← load ctx;
  s ← get;
  write_word (wrap64 (wrap64 (ss_sp (ctx_uc (cl_ctx b)) + task_stack_size s)
                      - SIZEOF_UINT64)) 0.

(** Initialise, create a context, let [body] run on its stack, release it,
    and count the warnings in the log. *)
Definition warnings_after (body : Z -> M unit) : option nat :=
  let cfg := example_config (-1) in
  let run : M nat :=
    dart__tasking__context_init cfg;;
    r ← dart__tasking__context_create cfg 7 8;
    match r with
    | Some ctx =>
        body ctx;;
        dart__tasking__context_release cfg ctx;;
        s ← get;
        mret (count_warn (log s))
    | None => fault
    end in
  match run initial_state with
  | Done n _ => Some n
  | _ => None
  end.

(** ** First activation *)

(** [setcontext] on a context that [makecontext] has pointed at the entry
    trampoline starts the trampoline, which does not come back; on any
    other saved state control resumes wherever that state was saved. *)
Definition setcontext_enters (call : Z -> Z -> M unit) (ctx : Z) : M Z :=
  b ← load ctx;
  if uc_entry (ctx_uc (cl_ctx b))
  then dart__tasking__context_entry call;; mret 0
  else fun s => Switched ctx s.

(** [swapcontext] saves the calling flow in the old context, which from
    then on no longer starts at the trampoline, and continues like
    [setcontext] on the new one. *)
Definition swapcontext_enters (call : Z -> Z -> M unit) (old_ctx new_ctx : Z)
  : M Z :=
  store old_ctx (fun b => set_ctx
    {| ctx_uc := {| uc_link := uc_link (ctx_uc (cl_ctx b));
                    ss_sp := ss_sp (ctx_uc (cl_ctx b));
                    ss_size := ss_size (ctx_uc (cl_ctx b));
                    ss_flags := ss_flags (ctx_uc (cl_ctx b));
                    uc_entry := false |};
       ctx_fn := ctx_fn (cl_ctx b); ctx_arg := ctx_arg (cl_ctx b) |} b);;
  setcontext_enters call new_ctx.

(** A build with guard pages whose [mprotect] calls fail. *)
Definition guarded_config : config :=
  {| USE_UCONTEXT := true; DART_DEBUG := false; USE_MPROTECT := true;
     USE_MMAP := true; sizeof_context_list_t := 1000;
     sysconf_pagesize := 4096; env_task_stacksize := -1;
     heap_limit := 2 ^ 30; mprotect_ret := fun _ => -1 |}.

(** A thread whose pool holds the single block at 4096, already entered
    once, so that its entry function and argument are null. *)
Definition one_idle_state : state :=
  {| task_stack_size := 16384; page_size := 4096; ctxlist := Some 4096;
     heap := {[ 4096 := one_block NULL NULL 1 None ]};
     stackmem := ∅; brk := 4096 + 20480; log := [] |}.

(** * Properties *)

(** ** Symbolic execution of the monadic code *)

Ltac munfold :=
  unfold DART_STACK_PUSH, DART_STACK_POP, write_word, getcontext, makecontext,
    sys_free, DART_ASSERT_MSG, DART_LOG_WARN, DART_LOG_ERROR in *;
  unfold mbind, mret, M_bind, M_ret, get, modify, load, store, abort, fault,
    out_of_fuel in *.

Lemma bind_done {A B} (m : M A) (k : A -> M B) s a s1 :
  m s = Done a s1 -> (m ≫= k) s = k a s1.
Proof. intros H. unfold mbind, M_bind. by rewrite H. Qed.

Lemma load_done s p b : heap s !! p = Some b -> load p s = Done b s.
Proof. intros H. unfold load. by rewrite H. Qed.

Lemma store_done s p b f :
  heap s !! p = Some b -> store p f s = Done tt (set_heap (<[p := f b]> (heap s)) s).
Proof. intros H. unfold store. by rewrite H. Qed.

Lemma dom_insert_present (h : gmap Z context_list_s) (q : Z) (x : context_list_s) :
  q ∈ dom h -> dom (<[q := x]> h) = dom h.
Proof. intros Hq. apply dom_insert_lookup_L. by apply elem_of_dom. Qed.

Lemma elem_of_dom_insert_mono (h : gmap Z context_list_s) (q q' : Z)
    (x : context_list_s) :
  q' ∈ dom h -> q' ∈ dom (<[q := x]> h).
Proof. rewrite dom_insert_L. intros H. apply elem_of_union. by right. Qed.

Ltac dom_elem := repeat apply elem_of_dom_insert_mono; assumption.
Ltac dom_same := rewrite !dom_insert_present by dom_elem.

(** ** Size adjustment (C7) *)

Section AdjustSize.

Lemma wrap64_small x : 0 <= x < SIZE_MOD -> wrap64 x = x.
Proof. intros H. unfold wrap64. by apply Z.mod_small. Qed.

Lemma pow2_lt_size_mod k : 0 <= k < 64 -> 0 < 2 ^ k < SIZE_MOD.
Proof.
  intros Hk. unfold SIZE_MOD. split; [apply Z.pow_pos_nonneg; lia|].
  apply Z.pow_lt_mono_r; lia.
Qed.

(** Clearing the low [k] bits of a 64-bit value with the 64-bit
    complement of the mask. *)
Lemma land_wrapped_lnot_ones k x :
  0 <= k < 64 -> 0 <= x < SIZE_MOD ->
  Z.land x (wrap64 (Z.lnot (Z.ones k))) = 2 ^ k * (x / 2 ^ k).
Proof.
  intros Hk Hx.
  assert (Z.land x (wrap64 (Z.lnot (Z.ones k))) = Z.ldiff x (Z.ones k)) as ->.
  { apply Z.bits_inj'. intros n Hn.
    rewrite Z.land_spec, Z.ldiff_spec. unfold wrap64, SIZE_MOD.
    destruct (Z_lt_dec n 64) as [Hlt|Hge].
    - rewrite Z.mod_pow2_bits_low by lia. by rewrite Z.lnot_spec by lia.
    - rewrite Z.mod_pow2_bits_high by lia.
      assert (Z.testbit x n = false) as ->; [|done].
      rewrite <- (Z.mod_small x (2 ^ 64)) by (unfold SIZE_MOD in Hx; lia).
      apply Z.mod_pow2_bits_high. lia. }
  rewrite Z.ldiff_ones_r by lia.
  rewrite Z.shiftl_mul_pow2, Z.shiftr_div_pow2 by lia. lia.
Qed.

Lemma adjust_size_eq k size :
  0 <= k < 64 -> 0 <= size -> size + 2 ^ k - 1 < SIZE_MOD ->
  dart__tasking__context_adjust_size (2 ^ k) size
  = 2 ^ k * ((size + 2 ^ k - 1) / 2 ^ k).
Proof.
  intros Hk Hs Hov. pose proof (pow2_lt_size_mod k Hk) as HP.
  unfold dart__tasking__context_adjust_size. cbv zeta.
  rewrite (wrap64_small (2 ^ k - 1)) by lia.
  rewrite (wrap64_small (size + (2 ^ k - 1))) by lia.
  replace (2 ^ k - 1) with (Z.ones k) at 2
    by (rewrite Z.ones_equiv; lia).
  rewrite land_wrapped_lnot_ones by lia.
  f_equal. f_equal. lia.
Qed.

End AdjustSize.

(** C7 (as amended): when the page size is a power of two and
    [size + page_size - 1] does not wrap around [size_t], the adjusted size
    is a multiple of the page size, is at least the requested size, is less
    than one page above it, and a size that is already a multiple of the
    page size is returned unchanged. *)
Theorem adjust_size_rounds_up (k size : Z) :
  0 <= k < 64 -> 0 <= size -> size + 2 ^ k - 1 < SIZE_MOD ->
  let r := dart__tasking__context_adjust_size (2 ^ k) size in
  r mod 2 ^ k = 0 /\ size <= r /\ r < size + 2 ^ k /\
  (size mod 2 ^ k = 0 -> r = size).
Proof.
  intros Hk Hs Hov r. subst r. rewrite adjust_size_eq by done.
  pose proof (pow2_lt_size_mod k Hk) as [HP _].
  set (P := 2 ^ k) in *.
  pose proof (Z.div_mod (size + P - 1) P ltac:(lia)) as Hdm.
  pose proof (Z.mod_pos_bound (size + P - 1) P HP) as Hm.
  repeat split.
  - rewrite Z.mul_comm. by apply Z.mod_mul; lia.
  - lia.
  - lia.
  - intros Hz.
    pose proof (Z.div_mod size P ltac:(lia)) as Hs'. rewrite Hz in Hs'.
    assert ((size + P - 1) / P = size / P) as ->; [|lia].
    symmetry. apply (Z.div_unique _ _ _ (P - 1)); lia.
Qed.

Lemma adjust_size_rounds_up_witness :
  let r := dart__tasking__context_adjust_size (2 ^ 12) (3 * 4096 + 1) in
  r mod 2 ^ 12 = 0 /\ 3 * 4096 + 1 <= r /\ r < 3 * 4096 + 1 + 2 ^ 12 /\
  ((3 * 4096 + 1) mod 2 ^ 12 = 0 -> r = 3 * 4096 + 1).
Proof.
  apply (adjust_size_rounds_up 12 (3 * 4096 + 1)); unfold SIZE_MOD; lia.
Defined.

(** The three sizes the specification names, with 4 KiB pages. *)
Example adjust_size_examples :
  dart__tasking__context_adjust_size 4096 1 = 4096 /\
  dart__tasking__context_adjust_size 4096 4096 = 4096 /\
  dart__tasking__context_adjust_size 4096 (3 * 4096 + 1) = 4 * 4096.
Proof. by vm_compute. Qed.

(** C7 as stated fails for the largest [size_t] values: with 4 KiB pages
    and a request of [2^64 - 1] bytes the addition wraps around and the
    result is 0, which is smaller than the request. *)
Lemma adjust_size_wraps_around :
  0 <= SIZE_MOD - 1 < SIZE_MOD /\
  dart__tasking__context_adjust_size 4096 (SIZE_MOD - 1) = 0 /\
  ~ (SIZE_MOD - 1 <= dart__tasking__context_adjust_size 4096 (SIZE_MOD - 1)).
Proof.
  assert (dart__tasking__context_adjust_size 4096 (SIZE_MOD - 1) = 0) as Hz
    by (by vm_compute).
  rewrite Hz. unfold SIZE_MOD. lia.
Qed.

(** ** Initialisation (C3) *)

(** Whatever the configuration provides, the comparison
    [env_stack_size > -1] is false and the default stays in place. *)
Lemma context_init_ignores_env (cfg : config) (s : state) :
  exists s',
    dart__tasking__context_init cfg s = Done tt s' /\
    page_size s' = wrap64 (sysconf_pagesize cfg) /\
    task_stack_size s' = Z.max (task_stack_size s) (wrap64 (sysconf_pagesize cfg)).
Proof.
  unfold dart__tasking__context_init, dart__tasking__context_pagesize.
  munfold. cbn.
  assert ((wrap64 (env_task_stacksize cfg) >? wrap64 (-1)) = false) as ->.
  { rewrite Z.gtb_ltb. apply Z.ltb_ge.
    pose proof (Z.mod_pos_bound (env_task_stacksize cfg) SIZE_MOD ltac:(done)).
    unfold wrap64 at 1. change (wrap64 (-1)) with (SIZE_MOD - 1). lia. }
  cbn. destruct (Z.ltb_spec (task_stack_size s) (wrap64 (sysconf_pagesize cfg)));
    eexists; (split; [reflexivity|]); cbn; lia.
Qed.

(** C3: with a valid configured stack size of 32 KiB and 4 KiB pages, the
    stack size after initialisation is the 16 KiB default, not the
    configured value. *)
Theorem context_init_drops_configured_size :
  task_stack_size (state_after_init (example_config 32768)) = 16384 /\
  task_stack_size (state_after_init (example_config 32768)) <> 32768.
Proof. split; [by vm_compute|]. by vm_compute. Qed.

(** ** Builds without ucontext support (C10) *)

(** C10: without ucontext support, [create] returns a null handle and
    leaves the state untouched, while [release], [invoke], [swap] and
    [cleanup] abort with the assertion message that names them. *)
Theorem no_ucontext_create_null_others_abort
    (setcontext : Z -> M Z) (swapcontext : Z -> Z -> M Z)
    (cfg : config) (s : state) (fn arg ctx old_ctx new_ctx : Z) (fuel : nat) :
  USE_UCONTEXT cfg = false ->
  dart__tasking__context_create cfg fn arg s = Done None s /\
  dart__tasking__context_release cfg ctx s
    = Abort "Cannot call dart__tasking__context_release without UCONTEXT support!" s /\
  dart__tasking__context_invoke setcontext cfg ctx s
    = Abort "Cannot call dart__tasking__context_invoke without UCONTEXT support!" s /\
  dart__tasking__context_swap swapcontext cfg old_ctx new_ctx s
    = Abort "Cannot call dart__tasking__context_swap without UCONTEXT support!" s /\
  dart__tasking__context_cleanup cfg fuel s
    = Abort "Cannot call dart__tasking__context_cleanup without UCONTEXT support!" s.
Proof.
  intros Hu.
  unfold dart__tasking__context_create, dart__tasking__context_release,
    dart__tasking__context_invoke, dart__tasking__context_swap,
    dart__tasking__context_cleanup.
  rewrite Hu. repeat split; reflexivity.
Qed.

Lemma no_ucontext_create_null_others_abort_witness :
  USE_UCONTEXT no_ucontext_config = false /\
  dart__tasking__context_create no_ucontext_config 7 8 initial_state
    = Done None initial_state /\
  dart__tasking__context_release no_ucontext_config 4096 initial_state
    = Abort "Cannot call dart__tasking__context_release without UCONTEXT support!"
        initial_state.
Proof.
  split; [reflexivity|].
  pose proof (no_ucontext_create_null_others_abort setcontext_transfers
                (swapcontext_returns 0) no_ucontext_config initial_state
                7 8 4096 4096 4096 0 eq_refl) as (H1 & H2 & _).
  split; [exact H1 | exact H2].
Defined.

(** ** Reuse of a pooled block (C6) *)

Lemma context_create_pops_head
    (cfg : config) (fn arg : Z) (s : state) (a : Z) (b : context_list_s) :
  USE_UCONTEXT cfg = true ->
  ctxlist s = Some a ->
  heap s !! a = Some b ->
  exists s' b',
    dart__tasking__context_create cfg fn arg s = Done (Some a) s' /\
    ctxlist s' = cl_next b /\
    heap s' !! a = Some b' /\
    cl_stack b' = cl_stack b /\
    ss_sp (ctx_uc (cl_ctx b')) = ss_sp (ctx_uc (cl_ctx b)) /\
    ss_size (ctx_uc (cl_ctx b')) = ss_size (ctx_uc (cl_ctx b)) /\
    cl_length b' = 0 /\
    ctx_fn (cl_ctx b') = fn /\ ctx_arg (cl_ctx b') = arg /\
    uc_entry (ctx_uc (cl_ctx b')) = true /\
    brk s' = brk s /\ log s' = log s /\
    dom (heap s') = dom (heap s) /\
    (forall q, q <> a -> heap s' !! q = heap s !! q).
Proof.
  intros Hu Hc Hb.
  assert (a ∈ dom (heap s)) as Hdom by (apply elem_of_dom; eauto).
  unfold dart__tasking__context_create. rewrite Hu. munfold. cbn.
  rewrite Hc. cbn. rewrite Hb. cbn. rewrite !lookup_insert_eq. cbn.
  destruct (DART_DEBUG cfg); repeat (cbn; rewrite ?lookup_insert_eq);
    (do 2 eexists; split; [reflexivity|]; cbn; rewrite lookup_insert_eq;
     repeat (split; [reflexivity|]);
     split; [by dom_same|];
     intros q Hq; by rewrite !lookup_insert_ne).
Qed.

(** C6: when the pool is non-empty, [create] returns the block at the head
    of the pool, unlinks it, keeps its stack region, resets its [length] to
    0, installs the new entry function and argument, and allocates
    nothing: the allocator's break, the log and the set of blocks are
    unchanged, as is every other block. *)
Theorem context_create_reuses_pool_head
    (cfg : config) (fn arg : Z) (s : state) (a : Z) (b : context_list_s) :
  USE_UCONTEXT cfg = true ->
  ctxlist s = Some a ->
  heap s !! a = Some b ->
  exists s' b',
    dart__tasking__context_create cfg fn arg s = Done (Some a) s' /\
    ctxlist s' = cl_next b /\
    heap s' !! a = Some b' /\
    cl_stack b' = cl_stack b /\
    ss_sp (ctx_uc (cl_ctx b')) = ss_sp (ctx_uc (cl_ctx b)) /\
    ss_size (ctx_uc (cl_ctx b')) = ss_size (ctx_uc (cl_ctx b)) /\
    cl_length b' = 0 /\
    ctx_fn (cl_ctx b') = fn /\ ctx_arg (cl_ctx b') = arg /\
    uc_entry (ctx_uc (cl_ctx b')) = true /\
    brk s' = brk s /\ log s' = log s /\
    dom (heap s') = dom (heap s) /\
    (forall q, q <> a -> heap s' !! q = heap s !! q).
Proof. exact (context_create_pops_head cfg fn arg s a b). Qed.

Lemma context_create_reuses_pool_head_witness :
  exists s' b',
    dart__tasking__context_create (example_config (-1)) 21 22 one_pooled_state
      = Done (Some 4096) s' /\
    heap s' !! 4096 = Some b' /\
    cl_stack b' = 8192 /\ cl_length b' = 0 /\ brk s' = brk one_pooled_state.
Proof.
  destruct (context_create_reuses_pool_head (example_config (-1)) 21 22
              one_pooled_state 4096 (one_block 7 8 1 None)
              eq_refl eq_refl eq_refl)
    as (s' & b' & H1 & _ & H3 & H4 & _ & _ & H7 & _ & _ & _ & H11 & _).
  exists s', b'. repeat split; assumption.
Defined.

(** ** The entry trampoline (C4) *)

Lemma context_entry_fetch_done (s : state) (p : Z) (b : context_list_s) :
  ctxlist s = Some p ->
  heap s !! p = Some b ->
  context_entry_fetch s
  = Done (ctx_fn (cl_ctx b), ctx_arg (cl_ctx b))
      (set_heap (<[p := set_ctx (set_fn_arg NULL NULL (cl_ctx b)) b]> (heap s))
         (set_ctxlist (cl_next b) s)).
Proof.
  intros Hc Hb. unfold context_entry_fetch. munfold. cbn.
  rewrite Hc. repeat (cbn; rewrite ?Hb). reflexivity.
Qed.

(** C4: on an empty tracking list the trampoline aborts on its assertion.
    Otherwise it pops the head block, hands the stored entry function and
    argument to the call, and at the moment of the call both fields of the
    block are already null; if the call returns, the trampoline aborts with
    its diagnostic, and in no case does the trampoline itself return. *)
Theorem context_entry_clears_then_calls (call : Z -> Z -> M unit) (s : state) :
  (ctxlist s = None ->
   dart__tasking__context_entry call s
   = Abort "Assertion failed: ctxlist != NULL" s) /\
  (forall p b,
     ctxlist s = Some p -> heap s !! p = Some b ->
     exists s1 b1,
       context_entry_fetch s = Done (ctx_fn (cl_ctx b), ctx_arg (cl_ctx b)) s1 /\
       ctxlist s1 = cl_next b /\
       heap s1 !! p = Some b1 /\
       ctx_fn (cl_ctx b1) = NULL /\ ctx_arg (cl_ctx b1) = NULL /\
       dart__tasking__context_entry call s
       = (call (ctx_fn (cl_ctx b)) (ctx_arg (cl_ctx b)) ≫= fun _ =>
            abort "task context invocation function returned!") s1 /\
       (forall s2,
          call (ctx_fn (cl_ctx b)) (ctx_arg (cl_ctx b)) s1 = Done tt s2 ->
          dart__tasking__context_entry call s
          = Abort "task context invocation function returned!" s2)) /\
  (forall r s', dart__tasking__context_entry call s <> Done r s').
Proof.
  split; [|split].
  - intros Hc. unfold dart__tasking__context_entry, context_entry_fetch.
    munfold. cbn. rewrite Hc. reflexivity.
  - intros p b Hc Hb.
    pose proof (context_entry_fetch_done s p b Hc Hb) as Hf.
    do 2 eexists. split; [exact Hf|]. cbn.
    rewrite lookup_insert_eq.
    repeat (split; [reflexivity|]).
    assert (dart__tasking__context_entry call s
            = (call (ctx_fn (cl_ctx b)) (ctx_arg (cl_ctx b)) ≫= fun _ =>
                 abort "task context invocation function returned!")
                (set_heap (<[p := set_ctx (set_fn_arg NULL NULL (cl_ctx b)) b]> (heap s))
                   (set_ctxlist (cl_next b) s))) as Heq.
    { unfold dart__tasking__context_entry.
      rewrite (bind_done _ _ _ _ _ Hf). reflexivity. }
    split; [exact Heq|].
    intros s2 Hcall. rewrite Heq. rewrite (bind_done _ _ _ _ _ Hcall).
    reflexivity.
  - intros r s' H. unfold dart__tasking__context_entry in H.
    unfold mbind, M_bind in H.
    destruct (context_entry_fetch s) as [[fn arg] s1| | | |]; try discriminate.
    destruct (call fn arg s1) as [[] s2| | | |]; discriminate.
Qed.

Lemma context_entry_clears_then_calls_witness :
  dart__tasking__context_entry task_returns one_pooled_state
  = Abort "task context invocation function returned!"
      (set_heap (<[4096 := one_block NULL NULL 1 None]> (heap one_pooled_state))
         (set_ctxlist None one_pooled_state)).
Proof.
  destruct (context_entry_clears_then_calls task_returns one_pooled_state)
    as (_ & H & _).
  destruct (H 4096 (one_block 7 8 1 None) eq_refl eq_refl)
    as (s1 & b1 & Hf & _ & _ & _ & _ & _ & Hret).
  rewrite (context_entry_fetch_done one_pooled_state 4096 (one_block 7 8 1 None)
             eq_refl eq_refl) in Hf.
  injection Hf as <-. exact (Hret _ eq_refl).
Defined.

(** ** Switching between contexts (C5, C8) *)

(** The state [swap] hands to [swapcontext]. *)
Lemma context_swap_prepare_done (s : state) (old_ctx new_ctx : Z)
    (ob nb : context_list_s) :
  heap s !! old_ctx = Some ob ->
  heap s !! new_ctx = Some nb ->
  exists s1 ob1,
    context_swap_prepare old_ctx new_ctx s = Done tt s1 /\
    heap s1 !! old_ctx = Some ob1 /\
    ctx_fn (cl_ctx ob1) = NULL /\
    (ctx_fn (cl_ctx ob) <> NULL -> ctx_arg (cl_ctx ob1) = NULL) /\
    (ctx_fn (cl_ctx nb) <> NULL ->
     ctxlist s1 = Some new_ctx /\
     exists nb1, heap s1 !! new_ctx = Some nb1 /\ cl_next nb1 = ctxlist s) /\
    (ctx_fn (cl_ctx nb) = NULL -> ctxlist s1 = ctxlist s) /\
    dom (heap s1) = dom (heap s) /\
    log s1 = log s.
Proof.
  intros Ho Hn. unfold context_swap_prepare. munfold. cbn.
  assert (old_ctx ∈ dom (heap s)) as Hod by (apply elem_of_dom; eauto).
  assert (new_ctx ∈ dom (heap s)) as Hnd by (apply elem_of_dom; eauto).
  rewrite Hn. cbn.
  destruct (Z.eqb_spec (ctx_fn (cl_ctx nb)) NULL) as [Hnf|Hnf]; cbn.
  - rewrite Ho. cbn.
    destruct (Z.eqb_spec (ctx_fn (cl_ctx ob)) NULL) as [Hof|Hof]; cbn.
    + exists s, ob. repeat split; try done.
    + rewrite Ho. do 2 eexists. split; [reflexivity|]. cbn.
      rewrite lookup_insert_eq. repeat split; try done.
      by dom_same.
  - rewrite Hn. cbn.
    destruct (decide (old_ctx = new_ctx)) as [->|Hne].
    + rewrite lookup_insert_eq. cbn.
      assert (ob = nb) as -> by congruence.
      destruct (Z.eqb_spec (ctx_fn (cl_ctx nb)) NULL) as [Hof|Hof]; [done|]. cbn.
      rewrite lookup_insert_eq. do 2 eexists. split; [reflexivity|]. cbn.
      rewrite lookup_insert_eq. repeat split; try done.
      * eexists. split; [reflexivity|]. reflexivity.
      * by dom_same.
    + rewrite lookup_insert_ne by done. rewrite Ho. cbn.
      destruct (Z.eqb_spec (ctx_fn (cl_ctx ob)) NULL) as [Hof|Hof]; cbn.
      * do 2 eexists. split; [reflexivity|]. cbn.
        rewrite lookup_insert_ne by done. rewrite lookup_insert_eq.
        repeat split; try done.
        -- eexists. split; [reflexivity|]. reflexivity.
        -- by dom_same.
      * rewrite lookup_insert_ne by done. rewrite Ho.
        do 2 eexists. split; [reflexivity|]. cbn.
        rewrite lookup_insert_eq. rewrite lookup_insert_ne by done.
        rewrite lookup_insert_eq. repeat split; try done.
        -- eexists. split; [reflexivity|]. reflexivity.
        -- by dom_same.
Qed.

(** C5: once [swap] has prepared the two contexts it calls the switch
    primitive; when the primitive comes back with anything but -1 the
    caller gets [DART_OK], and when it comes back with -1 the failure is
    logged and the caller gets [DART_ERR_OTHER] as an ordinary return
    value. *)
Theorem context_swap_reports_failure
    (swapcontext : Z -> Z -> M Z) (cfg : config) (s : state)
    (old_ctx new_ctx : Z) (ob nb : context_list_s) :
  USE_UCONTEXT cfg = true ->
  heap s !! old_ctx = Some ob ->
  heap s !! new_ctx = Some nb ->
  exists s1,
    context_swap_prepare old_ctx new_ctx s = Done tt s1 /\
    forall r s2,
      swapcontext old_ctx new_ctx s1 = Done r s2 ->
      (r <> -1 ->
       dart__tasking__context_swap swapcontext cfg old_ctx new_ctx s
       = Done DART_OK s2) /\
      (r = -1 ->
       dart__tasking__context_swap swapcontext cfg old_ctx new_ctx s
       = Done DART_ERR_OTHER (emit (EvError "Call to swapcontext failed!") s2)).
Proof.
  intros Hu Ho Hn.
  destruct (context_swap_prepare_done s old_ctx new_ctx ob nb Ho Hn)
    as (s1 & ob1 & Hp & _).
  exists s1. split; [exact Hp|]. intros r s2 Hsw.
  unfold dart__tasking__context_swap. rewrite Hu.
  rewrite (bind_done _ _ _ _ _ Hp). rewrite (bind_done _ _ _ _ _ Hsw).
  unfold context_swap_result. split.
  - intros Hr. destruct (Z.eqb_spec r (-1)); [done|reflexivity].
  - intros ->. reflexivity.
Qed.

Lemma context_swap_reports_failure_witness :
  dart__tasking__context_swap (swapcontext_returns (-1)) (example_config (-1))
    4096 24576 two_fresh_state
  = Done DART_ERR_OTHER
      (emit (EvError "Call to swapcontext failed!")
         (set_heap
            (<[4096 := one_block NULL NULL 0 None]>
               (<[24576 := one_block 9 10 0 None]> (heap two_fresh_state)))
            (set_ctxlist (Some 24576) two_fresh_state))).
Proof.
  destruct (context_swap_reports_failure (swapcontext_returns (-1))
              (example_config (-1)) two_fresh_state 4096 24576
              (one_block 7 8 0 None) (one_block 9 10 0 None)
              eq_refl eq_refl eq_refl) as (s1 & Hp & Hr).
  assert (s1 = set_heap
            (<[4096 := one_block NULL NULL 0 None]>
               (<[24576 := one_block 9 10 0 None]> (heap two_fresh_state)))
            (set_ctxlist (Some 24576) two_fresh_state)) as ->.
  { vm_compute in Hp. injection Hp as <-. by vm_compute. }
  exact (proj2 (Hr (-1) _ eq_refl) eq_refl).
Defined.

(** C8: the state in which [swap] calls the switch primitive has the old
    context's entry function null, and its argument null as well when the
    entry function was still pending; a new context with a pending entry
    function is at the head of the thread's tracking list, linked in front
    of the previous head. A later [swap] back into the old context
    therefore leaves the tracking list alone: nothing is queued for the
    trampoline. *)
Theorem context_swap_clears_old_pushes_new
    (swapcontext : Z -> Z -> M Z) (cfg : config) (s : state)
    (old_ctx new_ctx : Z) (ob nb : context_list_s) :
  USE_UCONTEXT cfg = true ->
  heap s !! old_ctx = Some ob ->
  heap s !! new_ctx = Some nb ->
  exists s1 ob1,
    context_swap_prepare old_ctx new_ctx s = Done tt s1 /\
    dart__tasking__context_swap swapcontext cfg old_ctx new_ctx s
    = (swapcontext old_ctx new_ctx ≫= context_swap_result) s1 /\
    heap s1 !! old_ctx = Some ob1 /\
    ctx_fn (cl_ctx ob1) = NULL /\
    (ctx_fn (cl_ctx ob) <> NULL -> ctx_arg (cl_ctx ob1) = NULL) /\
    (ctx_fn (cl_ctx nb) <> NULL ->
     ctxlist s1 = Some new_ctx /\
     exists nb1, heap s1 !! new_ctx = Some nb1 /\ cl_next nb1 = ctxlist s) /\
    (forall other xb,
       heap s1 !! other = Some xb ->
       exists s2, context_swap_prepare other old_ctx s1 = Done tt s2 /\
                  ctxlist s2 = ctxlist s1).
Proof.
  intros Hu Ho Hn.
  destruct (context_swap_prepare_done s old_ctx new_ctx ob nb Ho Hn)
    as (s1 & ob1 & Hp & Ho1 & Hfn & Harg & Hpush & _).
  exists s1, ob1. split; [exact Hp|]. split.
  { unfold dart__tasking__context_swap. rewrite Hu.
    by rewrite (bind_done _ _ _ _ _ Hp). }
  repeat (split; [done|]).
  intros other xb Hx.
  destruct (context_swap_prepare_done s1 other old_ctx xb ob1 Hx Ho1)
    as (s2 & _ & Hp2 & _ & _ & _ & _ & Hkeep & _).
  exists s2. split; [exact Hp2|]. by apply Hkeep.
Qed.

Lemma context_swap_clears_old_pushes_new_witness :
  exists s1 ob1,
    context_swap_prepare 4096 24576 two_fresh_state = Done tt s1 /\
    heap s1 !! 4096 = Some ob1 /\
    ctx_fn (cl_ctx ob1) = NULL /\ ctx_arg (cl_ctx ob1) = NULL /\
    ctxlist s1 = Some 24576.
Proof.
  destruct (context_swap_clears_old_pushes_new (swapcontext_returns 0)
              (example_config (-1)) two_fresh_state 4096 24576
              (one_block 7 8 0 None) (one_block 9 10 0 None)
              eq_refl eq_refl eq_refl)
    as (s1 & ob1 & Hp & _ & Ho1 & Hfn & Harg & Hpush & _).
  exists s1, ob1. repeat split; try assumption.
  - apply Harg. by vm_compute.
  - apply Hpush. by vm_compute.
Defined.

(** ** The pool as a linked list *)

Section PoolRep.

Implicit Types (h : gmap Z context_list_s) (p : option Z) (l : list Z).

Lemma pool_rep_frame h h' p l :
  pool_rep h p l ->
  (forall a, a ∈ l -> h' !! a = h !! a) ->
  pool_rep h' p l.
Proof.
  revert p. induction l as [|a l IH]; intros p Hrep Hsame; [exact Hrep|].
  destruct Hrep as (-> & b & Hb & Hlen & Hrest).
  split; [done|]. exists b. split; [|split; [done|]].
  - rewrite Hsame; [done|]. apply list_elem_of_here.
  - apply IH; [done|]. intros a' Ha'. apply Hsame. by apply list_elem_of_further.
Qed.

Lemma pool_rep_lengths h p l a :
  pool_rep h p l -> a ∈ l ->
  exists b, h !! a = Some b /\ 1 <= cl_length b <= Z.of_nat (length l).
Proof.
  revert p. induction l as [|a' l IH]; intros p Hrep Ha.
  - by apply elem_of_nil in Ha.
  - destruct Hrep as (-> & b & Hb & Hlen & Hrest).
    apply elem_of_cons in Ha as [->|Ha].
    + exists b. split; [done|]. cbn [length] in *. lia.
    + destruct (IH _ Hrest Ha) as (b' & Hb' & Hl').
      exists b'. split; [done|]. cbn [length]. lia.
Qed.

Lemma pool_rep_head_fresh h p a l :
  pool_rep h p (a :: l) -> a ∉ l.
Proof.
  intros (-> & b & Hb & Hlen & Hrest) Hin.
  destruct (pool_rep_lengths _ _ _ _ Hrest Hin) as (b' & Hb' & Hl').
  assert (b' = b) as -> by congruence. cbn [length] in Hlen. lia.
Qed.

Lemma pool_rep_NoDup h p l : pool_rep h p l -> NoDup l.
Proof.
  revert p. induction l as [|a l IH]; intros p Hrep; [constructor|].
  constructor.
  - by eapply pool_rep_head_fresh.
  - destruct Hrep as (_ & b & _ & _ & Hrest). by eapply IH.
Qed.

Lemma pool_rep_walk h p l fuel :
  pool_rep h p l -> (length l <= fuel)%nat -> pool_walk fuel h p = Some l.
Proof.
  revert p fuel. induction l as [|a l IH]; intros p fuel Hrep Hfuel.
  - change (p = None) in Hrep. subst p. by destruct fuel.
  - destruct Hrep as (-> & b & Hb & Hlen & Hrest).
    destruct fuel as [|fuel]; [cbn in Hfuel; lia|].
    cbn. rewrite Hb. rewrite (IH _ fuel Hrest); [done|]. cbn in Hfuel. lia.
Qed.

Lemma pool_rep_size h p l : pool_rep h p l -> (length l <= size h)%nat.
Proof.
  intros Hrep.
  rewrite <- (size_list_to_set (C := gset Z) l) by by eapply pool_rep_NoDup.
  rewrite <- (size_dom (D := gset Z) h).
  apply subseteq_size. intros a Ha. apply elem_of_list_to_set in Ha.
  destruct (pool_rep_lengths _ _ _ _ Hrep Ha) as (b & Hb & _).
  apply elem_of_dom. eauto.
Qed.

Lemma pool_rep_unique h p l1 l2 :
  pool_rep h p l1 -> pool_rep h p l2 -> l1 = l2.
Proof.
  intros H1 H2.
  pose proof (pool_rep_walk h p l1 (length l1 + length l2) H1 ltac:(lia)) as W1.
  pose proof (pool_rep_walk h p l2 (length l1 + length l2) H2 ltac:(lia)) as W2.
  congruence.
Qed.

End PoolRep.

Lemma pool_inv_head_length (s : state) (l : list Z) :
  pool_inv s l -> head_length s = Z.of_nat (length l).
Proof.
  unfold pool_inv, head_length. destruct l as [|a l].
  - intros H. change (ctxlist s = None) in H. by rewrite H.
  - intros (-> & b & -> & Hlen & _). exact Hlen.
Qed.

Lemma pool_inv_size (s : state) (l : list Z) :
  pool_inv s l -> pool_size s = Some (length l).
Proof.
  intros H. unfold pool_size.
  by rewrite (pool_rep_walk _ _ _ _ H (pool_rep_size _ _ _ H)).
Qed.

(** ** Release and the pool *)

Lemma check_stack_guards_done (cfg : config) (s : state) (ctx : Z)
    (b : context_list_s) :
  heap s !! ctx = Some b ->
  exists s1,
    check_stack_guards cfg ctx s = Done tt s1 /\
    heap s1 = heap s /\ ctxlist s1 = ctxlist s /\
    count_free (log s1) = count_free (log s).
Proof.
  intros Hb. unfold check_stack_guards. munfold.
  destruct (DART_DEBUG cfg); [|by exists s].
  rewrite Hb.
  match goal with |- context [if ?c then _ else _] => destruct c end;
    by eexists.
Qed.

Lemma context_free_done (cfg : config) (s : state) (p : Z) (b : context_list_s) :
  heap s !! p = Some b ->
  exists s',
    dart__tasking__context_free cfg p s = Done tt s' /\
    heap s' = delete p (heap s) /\ ctxlist s' = ctxlist s /\
    count_free (log s') = S (count_free (log s)).
Proof.
  intros Hb. unfold dart__tasking__context_free. munfold.
  destruct (USE_MPROTECT cfg); repeat (cbn; rewrite ?Hb).
  - destruct (mprotect_ret cfg (cl_ub_guard b) =? 0); repeat (cbn; rewrite ?Hb);
      by eexists.
  - by eexists.
Qed.

(** What [release] does to a well-formed pool: a block that is not in the
    pool is freed when the head's [length] exceeds [PER_THREAD_CTX_STORE]
    and is pushed, with the head's [length] plus one, in every other
    case. *)
Lemma context_release_pool (cfg : config) (s : state) (ctx : Z)
    (b : context_list_s) (l : list Z) :
  USE_UCONTEXT cfg = true ->
  pool_inv s l ->
  heap s !! ctx = Some b ->
  ctx ∉ l ->
  exists s',
    dart__tasking__context_release cfg ctx s = Done tt s' /\
    if Z.of_nat (length l) >? PER_THREAD_CTX_STORE
    then pool_inv s' l /\ heap s' = delete ctx (heap s) /\
         count_free (log s') = S (count_free (log s))
    else pool_inv s' (ctx :: l) /\ dom (heap s') = dom (heap s) /\
         (forall q, q <> ctx -> heap s' !! q = heap s !! q) /\
         count_free (log s') = count_free (log s).
Proof.
  intros Hu Hinv Hb Hnotin.
  unfold dart__tasking__context_release. rewrite Hu.
  destruct (check_stack_guards_done cfg s ctx b Hb) as (s1 & Hchk & Hh & Hc & Hlog).
  rewrite (bind_done _ _ _ _ _ Hchk).
  assert (pool_inv s1 l) as Hinv1 by (unfold pool_inv; by rewrite Hh, Hc).
  assert (heap s1 !! ctx = Some b) as Hb1 by (by rewrite Hh).
  rewrite <- Hh, <- Hlog. clear Hchk Hinv Hb Hh Hc Hlog s.
  pose proof (pool_inv_head_length s1 l Hinv1) as Hhead.
  unfold head_length in Hhead. unfold pool_inv in Hinv1.
  assert (ctx ∈ dom (heap s1)) as Hdom by (apply elem_of_dom; eauto).
  remember (Z.of_nat (length l)) as n eqn:Hn.
  munfold. cbn.
  destruct (ctxlist s1) as [hd|] eqn:Hhd.
  - destruct l as [|a l']; [discriminate Hinv1|].
    destruct Hinv1 as (Heq & hb & Hhb & Hlen & Hrest). injection Heq as ->.
    rewrite Hhb in Hhead. cbn. rewrite Hhb. cbn. rewrite Hhead.
    destruct (n >? PER_THREAD_CTX_STORE) eqn:Hfull.
    + destruct (context_free_done cfg s1 ctx b Hb1) as (s' & Hf & Hh' & Hc' & Hl').
      exists s'. split; [exact Hf|]. split; [|done].
      unfold pool_inv. rewrite Hh', Hc', Hhd.
      apply (pool_rep_frame (heap s1) _ (Some a) (a :: l')).
      * split; [done|]. by exists hb.
      * intros q Hq. apply lookup_delete_ne. intros ->. contradiction.
    + assert (a <> ctx) as Hne.
      { intros ->. apply Hnotin, list_elem_of_here. }
      repeat (cbn; rewrite ?Hhb, ?Hb1, ?lookup_insert_eq).
      eexists. split; [reflexivity|]. cbn. rewrite ?Hhd.
      split; [|split; [|split; [|done]]].
      * unfold pool_inv. cbn. split; [done|]. eexists.
        rewrite lookup_insert_eq. split; [reflexivity|]. cbn.
        split; [cbn [length] in *; lia|].
        apply (pool_rep_frame (heap s1) _ (Some a) (a :: l')).
        -- split; [done|]. by exists hb.
        -- intros q Hq. rewrite !lookup_insert_ne; [done|..];
             intros ->; contradiction.
      * by dom_same.
      * intros q Hq. by rewrite !lookup_insert_ne.
  - destruct l as [|a l']; [|by destruct Hinv1]. subst n. cbn.
    repeat (cbn; rewrite ?Hb1, ?lookup_insert_eq).
    eexists. split; [reflexivity|]. cbn.
    split; [|split; [|split; [|done]]].
    * unfold pool_inv. cbn. split; [done|]. eexists.
      rewrite lookup_insert_eq. split; [reflexivity|]. cbn. done.
    * by dom_same.
    * intros q Hq. by rewrite !lookup_insert_ne.
Qed.

(** ** Create and the pool *)

(** With an empty pool [create] goes to the allocator: it either aborts on
    exhausted memory or returns a block that is in the heap, and the pool
    stays empty. *)
Lemma context_create_allocates (cfg : config) (fn arg : Z) (s : state) :
  USE_UCONTEXT cfg = true ->
  ctxlist s = None ->
  (exists msg, dart__tasking__context_create cfg fn arg s = Abort msg s) \/
  (exists a s',
     dart__tasking__context_create cfg fn arg s = Done (Some a) s' /\
     ctxlist s' = None /\
     is_Some (heap s' !! a) /\
     (forall q, is_Some (heap s !! q) -> is_Some (heap s' !! q)) /\
     count_alloc (log s') = S (count_alloc (log s))).
Proof.
  intros Hu Hc.
  unfold dart__tasking__context_create, dart__tasking__context_allocate, sys_alloc.
  rewrite Hu. munfold. cbn. rewrite Hc. cbn.
  match goal with |- context [if ?c then Done (Some ?p) _ else _] =>
    destruct c; [set (addr := p)|]
  end; cbn; [|left; by eexists].
  right.
  assert (forall (h : gmap Z context_list_s) x q,
            is_Some (h !! q) -> is_Some (<[addr := x]> h !! q)) as Hmono.
  { intros h x q Hq. destruct (decide (addr = q)) as [->|Hne].
    - rewrite lookup_insert_eq. eauto.
    - by rewrite lookup_insert_ne. }
  destruct (USE_MMAP cfg), (USE_MPROTECT cfg), (DART_DEBUG cfg);
    repeat (cbn; rewrite ?lookup_insert_eq);
    try (match goal with |- context [if ?c then _ else _] => destruct c end;
         repeat (cbn; rewrite ?lookup_insert_eq));
    (do 2 eexists; split; [reflexivity|]; cbn;
     split; [done|]; split; [rewrite lookup_insert_eq; eauto|];
     split; [intros q Hq; by repeat apply Hmono|done]).
Qed.

(** ** Cleanup *)

(** With at least as many iterations as there are pooled blocks, the
    cleanup loop terminates, frees every pooled block and nothing else,
    and leaves the pool empty. *)
Lemma cleanup_loop_drains (cfg : config) (l : list Z) :
  forall (s : state) (fuel : nat),
    pool_inv s l -> (length l <= fuel)%nat ->
    exists s',
      cleanup_loop cfg fuel s = Done tt s' /\
      ctxlist s' = None /\
      (forall q, q ∉ l -> heap s' !! q = heap s !! q) /\
      count_free (log s') = (count_free (log s) + length l)%nat.
Proof.
  induction l as [|a l IH]; intros s fuel Hinv Hfuel.
  - change (ctxlist s = None) in Hinv.
    exists s. split; [|split; [done|split; [done|cbn; lia]]].
    destruct fuel; cbn; unfold mbind, M_bind, get; by rewrite Hinv.
  - destruct fuel as [|fuel]; [cbn in Hfuel; lia|].
    pose proof (pool_rep_head_fresh _ _ _ _ Hinv) as Hfresh.
    destruct Hinv as (Hc & hb & Hhb & Hlen & Hrest).
    set (s_a := set_ctxlist (cl_next hb) s).
    destruct (context_free_done cfg s_a a hb Hhb) as (s1 & Hf & Hh1 & Hc1 & Hl1).
    assert (pool_inv s1 l) as Hinv1.
    { unfold pool_inv. rewrite Hh1, Hc1. cbn.
      apply (pool_rep_frame (heap s)); [done|].
      intros q Hq. apply lookup_delete_ne. by intros ->. }
    destruct (IH s1 fuel Hinv1 ltac:(cbn in Hfuel; lia))
      as (s' & Hrun & Hc' & Hkeep & Hcount).
    exists s'. split; [|split; [done|split]].
    + cbn. unfold DART_STACK_POP.
      unfold mbind at 1, M_bind at 1, get at 1. rewrite Hc.
      unfold mbind at 1, M_bind at 1.
      unfold mbind at 1, M_bind at 1.
      unfold mbind at 1, M_bind at 1, get at 1. rewrite Hc.
      unfold mbind at 1, M_bind at 1. rewrite (load_done _ _ _ Hhb).
      unfold mbind at 1, M_bind at 1, modify at 1, mret, M_ret.
      fold s_a. rewrite Hf. exact Hrun.
    + intros q Hq. apply not_elem_of_cons in Hq as [Hqa Hq].
      rewrite (Hkeep q Hq), Hh1. cbn. by apply lookup_delete_ne.
    + rewrite Hcount, Hl1. change (log s_a) with (log s).
      change (length (a :: l)) with (S (length l)). lia.
Qed.

Lemma context_cleanup_drains (cfg : config) (s : state) (l : list Z) :
  USE_UCONTEXT cfg = true ->
  pool_inv s l ->
  exists s',
    dart__tasking__context_cleanup cfg (size (heap s)) s = Done tt s' /\
    pool_inv s' [] /\
    (forall q, q ∉ l -> heap s' !! q = heap s !! q) /\
    count_free (log s') = (count_free (log s) + length l)%nat.
Proof.
  intros Hu Hinv. unfold dart__tasking__context_cleanup. rewrite Hu.
  exact (cleanup_loop_drains cfg l s _ Hinv (pool_rep_size _ _ _ Hinv)).
Qed.

(** ** The pool invariant along a run (C9) *)

Lemma run_op_preserves (cfg : config) (op : pool_op) (c c' : state * list Z) :
  run_inv c -> run_op cfg op c = Some c' -> run_inv c'.
Proof.
  destruct c as [s held]. intros (l & Hinv & Hbound & Hheld) Hrun.
  destruct (USE_UCONTEXT cfg) eqn:Hu.
  2:{ destruct op as [fn arg|ctx|]; cbn in Hrun.
      - unfold dart__tasking__context_create in Hrun. rewrite Hu in Hrun.
        cbn in Hrun. injection Hrun as <-. by exists l.
      - unfold dart__tasking__context_release in Hrun. rewrite Hu in Hrun.
        by destruct (bool_decide (ctx ∈ held)).
      - unfold dart__tasking__context_cleanup in Hrun. by rewrite Hu in Hrun. }
  destruct op as [fn arg|ctx|]; cbn in Hrun.
  - (* create *)
    destruct l as [|a l'].
    + change (ctxlist s = None) in Hinv.
      destruct (context_create_allocates cfg fn arg s Hu Hinv)
        as [(msg & Hc)|(a & s' & Hc & Hc' & Ha & Hmono & _)];
        rewrite Hc in Hrun; [discriminate|]. injection Hrun as <-.
      exists []. split; [exact Hc'|]. split; [cbn; lia|].
      cbn. intros q Hq. split; [apply not_elem_of_nil|].
      apply elem_of_cons in Hq as [->|Hq]; [done|].
      apply Hmono. by apply Hheld.
    + pose proof (pool_rep_head_fresh _ _ _ _ Hinv) as Hfresh.
      destruct Hinv as (Hc & hb & Hhb & Hlen & Hrest).
      destruct (context_create_pops_head cfg fn arg s a hb Hu Hc Hhb)
        as (s' & b' & Hcr & Hc' & Hb' & _ & _ & _ & _ & _ & _ & _ & _ & _ & Hdom & Hsame).
      rewrite Hcr in Hrun. injection Hrun as <-.
      exists l'. cbn. split; [|split].
      * unfold pool_inv. rewrite Hc'.
        apply (pool_rep_frame (heap s)); [done|].
        intros q Hq. apply Hsame. by intros ->.
      * cbn in Hbound. lia.
      * intros q Hq. apply elem_of_cons in Hq as [->|Hq].
        -- split; [done|]. rewrite Hb'. eauto.
        -- destruct (Hheld q Hq) as [Hnl Hsome]. split.
           ++ intros Hin. apply Hnl. by apply list_elem_of_further.
           ++ apply elem_of_dom. rewrite Hdom. by apply elem_of_dom.
  - (* release *)
    destruct (bool_decide (ctx ∈ held)) eqn:Hin; [|discriminate].
    apply bool_decide_eq_true in Hin.
    destruct (Hheld ctx Hin) as [Hnl [b Hb]].
    destruct (context_release_pool cfg s ctx b l Hu Hinv Hb Hnl) as (s' & Hrel & Hres).
    rewrite Hrel in Hrun. injection Hrun as <-.
    assert (forall q, q ∈ List.filter (fun a => negb (a =? ctx)) held ->
                      q ∈ held /\ q <> ctx) as Hfilter.
    { intros q Hq. apply list_elem_of_In, List.filter_In in Hq as [Hq Hne].
      split; [by apply list_elem_of_In|].
      intros ->. by rewrite Z.eqb_refl in Hne. }
    destruct (Z.of_nat (length l) >? PER_THREAD_CTX_STORE) eqn:Hfull.
    + destruct Hres as (Hinv' & Hh' & _). exists l. split; [exact Hinv'|].
      split; [done|]. cbn.
      intros q Hq. apply Hfilter in Hq as [Hq Hne].
      destruct (Hheld q Hq) as [Hql Hsome]. split; [done|].
      rewrite Hh'. by rewrite lookup_delete_ne.
    + destruct Hres as (Hinv' & Hdom & Hsame & _). exists (ctx :: l).
      split; [exact Hinv'|].
      split; [rewrite Z.gtb_ltb in Hfull; apply Z.ltb_ge in Hfull;
              unfold PER_THREAD_CTX_STORE in Hfull; cbn [length]; lia|].
      cbn.
      intros q Hq. apply Hfilter in Hq as [Hq Hne].
      destruct (Hheld q Hq) as [Hql Hsome]. split.
      * apply not_elem_of_cons. by split.
      * by rewrite Hsame.
  - (* cleanup *)
    destruct (context_cleanup_drains cfg s l Hu Hinv) as (s' & Hcl & Hinv' & Hkeep & _).
    rewrite Hcl in Hrun. injection Hrun as <-.
    exists []. split; [exact Hinv'|]. split; [cbn; lia|]. cbn.
    intros q Hq. destruct (Hheld q Hq) as [Hql Hsome].
    split; [apply not_elem_of_nil|]. by rewrite Hkeep.
Qed.

Lemma run_ops_preserves (cfg : config) (ops : list pool_op) :
  forall c c', run_inv c -> run_ops cfg ops c = Some c' -> run_inv c'.
Proof.
  induction ops as [|op ops IH]; intros c c' Hinv Hrun; cbn in Hrun.
  - by injection Hrun as <-.
  - destruct (run_op cfg op c) as [c1|] eqn:Hop; [|discriminate].
    eapply IH; [|exact Hrun]. by eapply run_op_preserves.
Qed.

(** The pool never holds more than eleven blocks. *)
Lemma pool_size_at_most_eleven
    (cfg : config) (ops : list pool_op) (s0 s : state) (held : list Z) :
  ctxlist s0 = None ->
  run_ops cfg ops (s0, []) = Some (s, held) ->
  exists n, pool_size s = Some n /\ (n <= 11)%nat.
Proof.
  intros Hc Hrun.
  assert (run_inv (s0, [])) as Hinv0.
  { exists []. split; [exact Hc|]. split; [cbn; lia|].
    cbn. intros a Ha. by apply elem_of_nil in Ha. }
  destruct (run_ops_preserves cfg ops _ _ Hinv0 Hrun) as (l & Hinv & Hbound & _).
  exists (length l). split; [by apply pool_inv_size|done].
Qed.

(** ** The capacity of the pool (C1) *)

(** A pool of exactly [PER_THREAD_CTX_STORE] blocks takes one more: the
    test in [release] is [length > PER_THREAD_CTX_STORE]. *)
Lemma context_release_pools_at_capacity (cfg : config) (s : state) (ctx : Z)
    (b : context_list_s) (l : list Z) :
  USE_UCONTEXT cfg = true ->
  pool_inv s l ->
  Z.of_nat (length l) = PER_THREAD_CTX_STORE ->
  heap s !! ctx = Some b ->
  ctx ∉ l ->
  exists s',
    dart__tasking__context_release cfg ctx s = Done tt s' /\
    pool_inv s' (ctx :: l) /\
    count_free (log s') = count_free (log s).
Proof.
  intros Hu Hinv Hlen Hb Hnl.
  destruct (context_release_pool cfg s ctx b l Hu Hinv Hb Hnl) as (s' & Hrel & Hres).
  rewrite Hlen in Hres. cbn in Hres. destruct Hres as (Hinv' & _ & _ & Hlog).
  by exists s'.
Qed.

(** C1: releasing eleven contexts leaves all eleven in the pool and frees
    none: with ten blocks pooled, the eleventh is pooled too. Releasing
    twelve leaves eleven in the pool and frees one. *)
Theorem release_retains_eleven_blocks :
  match create_then_release 11 with
  | Some (s, held) =>
      held = [] /\ pool_size s = Some 11%nat /\ count_free (log s) = 0%nat
  | None => False
  end /\
  match create_then_release 12 with
  | Some (s, held) =>
      held = [] /\ pool_size s = Some 11%nat /\ count_free (log s) = 1%nat /\
      pool_walk 11 (heap s) (ctxlist s) = Some (rev (block_addrs 11))
  | None => False
  end.
Proof. split; by vm_compute. Qed.

(** ** The stack sentinels (C2) *)

(** The check warns exactly when both sentinels differ from the guard
    value. *)
Lemma check_stack_guards_warns_iff_both (cfg : config) (s : state) (ctx : Z)
    (b : context_list_s) :
  DART_DEBUG cfg = true ->
  heap s !! ctx = Some b ->
  let stack := ss_sp (ctx_uc (cl_ctx b)) in
  let lo := read_word s stack in
  let hi := read_word s (wrap64 (wrap64 (stack + task_stack_size s) - SIZEOF_UINT64)) in
  check_stack_guards cfg ctx s
  = Done tt (if negb (lo =? STACK_GUARD) && negb (hi =? STACK_GUARD)
             then emit (EvWarn stack_overflow_warning) s else s).
Proof.
  intros Hd Hb. cbv zeta. unfold check_stack_guards. rewrite Hd. munfold.
  rewrite Hb.
  by match goal with |- context [if ?c then _ else _] => destruct c end.
Qed.

(** C2: a context whose low sentinel alone, or whose high sentinel alone,
    was overwritten is released without any warning; the warning appears
    only when both sentinels were overwritten. An untouched stack gives no
    warning either. *)
Theorem release_silent_on_one_overwritten_sentinel :
  warnings_after overwrite_low = Some 0%nat /\
  warnings_after overwrite_high = Some 0%nat /\
  warnings_after (fun ctx => overwrite_low ctx;; overwrite_high ctx) = Some 1%nat /\
  warnings_after (fun _ => mret tt) = Some 0%nat.
Proof. repeat split; by vm_compute. Qed.

(** * Further properties of the module *)

(** ** Stack size after initialisation *)

Lemma adjust_size_page_multiple (k size : Z) :
  0 <= k < 64 -> 0 <= size -> size + 2 ^ k - 1 < SIZE_MOD ->
  size mod 2 ^ k = 0 ->
  dart__tasking__context_adjust_size (2 ^ k) size = size.
Proof.
  intros Hk Hs Hov Hz. rewrite adjust_size_eq by done.
  pose proof (pow2_lt_size_mod k Hk) as [HP _].
  set (P := 2 ^ k) in *.
  pose proof (Z.div_mod size P ltac:(lia)) as Hs'. rewrite Hz in Hs'.
  assert ((size + P - 1) / P = size / P) as ->; [|lia].
  symmetry. apply (Z.div_unique _ _ _ (P - 1)); lia.
Qed.

Lemma adjust_size_bounds (k size : Z) :
  0 <= k < 64 -> 0 <= size -> size + 2 ^ k - 1 < SIZE_MOD ->
  let r := dart__tasking__context_adjust_size (2 ^ k) size in
  r mod 2 ^ k = 0 /\ size <= r < size + 2 ^ k.
Proof.
  intros Hk Hs Hov r. subst r. rewrite adjust_size_eq by done.
  pose proof (pow2_lt_size_mod k Hk) as [HP _].
  set (P := 2 ^ k) in *.
  pose proof (Z.div_mod (size + P - 1) P ltac:(lia)) as Hdm.
  pose proof (Z.mod_pos_bound (size + P - 1) P HP) as Hm.
  split; [|lia]. rewrite Z.mul_comm. by apply Z.mod_mul; lia.
Qed.

(** X1: with a power-of-two page size, initialisation leaves a stack size
    that is at least one page and a whole number of pages, so the size
    adjustment in the allocator leaves it unchanged. *)
Theorem context_init_stack_size_whole_pages (cfg : config) (k : Z) :
  0 <= k < 64 ->
  sysconf_pagesize cfg = 2 ^ k ->
  let s := state_after_init cfg in
  page_size s = 2 ^ k /\
  page_size s <= task_stack_size s /\
  task_stack_size s mod page_size s = 0 /\
  dart__tasking__context_adjust_size (page_size s) (task_stack_size s)
  = task_stack_size s.
Proof.
  intros Hk Hp. cbv zeta. unfold state_after_init.
  destruct (context_init_ignores_env cfg initial_state) as (s' & -> & Hps & Hts).
  pose proof (pow2_lt_size_mod k Hk) as HP.
  rewrite Hp, wrap64_small in Hps, Hts by lia.
  change (task_stack_size initial_state) with (2 ^ 14) in Hts.
  rewrite Hps, Hts.
  assert (Z.max (2 ^ 14) (2 ^ k) mod 2 ^ k = 0) as Hmod.
  { destruct (Z_le_gt_dec k 14) as [Hle|Hgt].
    - rewrite Z.max_l by (apply Z.pow_le_mono_r; lia).
      replace 14 with ((14 - k) + k) by lia.
      rewrite Z.pow_add_r by lia. apply Z.mod_mul. lia.
    - rewrite Z.max_r by (apply Z.pow_le_mono_r; lia).
      apply Z.mod_same. lia. }
  split; [done|]. split; [lia|]. split; [done|].
  apply adjust_size_page_multiple; try done; [lia|].
  assert (2 ^ 14 < 2 ^ 62 /\ 2 ^ 62 + 2 ^ 62 < SIZE_MOD) by (unfold SIZE_MOD; lia).
  destruct (Z_le_gt_dec k 14) as [Hle|Hgt].
  - rewrite Z.max_l by (apply Z.pow_le_mono_r; lia).
    assert (2 ^ k <= 2 ^ 14) by (apply Z.pow_le_mono_r; lia). lia.
  - rewrite Z.max_r by (apply Z.pow_le_mono_r; lia).
    assert (2 ^ k <= 2 ^ 63) by (apply Z.pow_le_mono_r; lia).
    unfold SIZE_MOD. lia.
Qed.

Lemma context_init_stack_size_whole_pages_witness :
  let s := state_after_init (example_config 32768) in
  page_size s = 2 ^ 12 /\
  page_size s <= task_stack_size s /\
  task_stack_size s mod page_size s = 0 /\
  dart__tasking__context_adjust_size (page_size s) (task_stack_size s)
  = task_stack_size s.
Proof.
  apply (context_init_stack_size_whole_pages (example_config 32768) 12);
    [lia | reflexivity].
Defined.

(** ** Layout of a freshly allocated block *)

Lemma align_up_aligned (align x : Z) :
  0 < align -> x <= align_up align x /\ align_up align x mod align = 0.
Proof.
  intros Ha. unfold align_up.
  destruct (Z.leb_spec align 0); [lia|].
  pose proof (Z.div_mod (x + align - 1) align ltac:(lia)) as Hdm.
  pose proof (Z.mod_pos_bound (x + align - 1) align Ha) as Hm.
  split; [lia|]. apply Z.mod_mul. lia.
Qed.

Lemma adjust_size_header (k size : Z) :
  0 <= k < 64 -> 0 < size <= 2 ^ k ->
  dart__tasking__context_adjust_size (2 ^ k) size = 2 ^ k.
Proof.
  intros Hk Hs. pose proof (pow2_lt_size_mod k Hk) as HP.
  assert (2 ^ k + 2 ^ k <= SIZE_MOD) as H2.
  { unfold SIZE_MOD. replace 64 with (1 + 63) by lia.
    rewrite Z.pow_add_r by lia.
    assert (2 ^ k <= 2 ^ 63) by (apply Z.pow_le_mono_r; lia). lia. }
  rewrite adjust_size_eq by lia.
  assert ((size + 2 ^ k - 1) / 2 ^ k = 1) as ->; [|lia].
  symmetry. apply (Z.div_unique _ _ _ (size - 1)); lia.
Qed.

(** X2: with power-of-two pages, a header that fits in one page and sizes
    that do not wrap around, the allocator either aborts on exhausted
    memory, leaving the state untouched, or returns a page-aligned block
    whose allocation is a whole number of pages: the first page holds the
    header, the usable stack follows it and lies inside the allocation,
    and with guard pages the guard page starts where the usable stack ends
    and lies inside the allocation too. A failing [mprotect] does not make
    the allocation fail. *)
Theorem context_allocate_layout (cfg : config) (s : state) (k : Z) :
  0 <= k < 64 ->
  page_size s = 2 ^ k ->
  0 < sizeof_context_list_t cfg <= 2 ^ k ->
  0 < task_stack_size s ->
  task_stack_size s + 3 * 2 ^ k <= SIZE_MOD ->
  0 <= brk s ->
  heap_limit cfg <= SIZE_MOD ->
  (exists msg, dart__tasking__context_allocate cfg s = Abort msg s) \/
  (exists p s' b size,
     dart__tasking__context_allocate cfg s = Done p s' /\
     heap s' !! p = Some b /\
     EvAlloc p size ∈ log s' /\
     brk s <= p /\ p mod 2 ^ k = 0 /\ size mod 2 ^ k = 0 /\
     p + size <= brk s' /\
     cl_next b = None /\ cl_length b = 0 /\
     cl_stack b = p + 2 ^ k /\
     cl_stack b + task_stack_size s
       <= p + size - (if USE_MPROTECT cfg then 2 ^ k else 0) /\
     (USE_MPROTECT cfg = true ->
      cl_ub_guard b = cl_stack b + task_stack_size s /\
      cl_ub_guard b + 2 ^ k <= p + size) /\
     ctxlist s' = ctxlist s).
Proof.
  intros Hk Hps Hsz Hts Hov Hbrk Hlim.
  pose proof (pow2_lt_size_mod k Hk) as HP.
  pose proof (adjust_size_header k _ Hk Hsz) as Hhdr.
  pose proof (adjust_size_bounds k (task_stack_size s) Hk ltac:(lia) ltac:(lia))
    as [HRm HR].
  pose proof (align_up_aligned (2 ^ k) (brk s) ltac:(lia)) as [Hp Hpm].
  unfold dart__tasking__context_allocate, sys_alloc. munfold. cbn.
  rewrite Hps, Hhdr.
  set (R := dart__tasking__context_adjust_size (2 ^ k) (task_stack_size s)) in *.
  set (p := align_up (2 ^ k) (brk s)) in *.
  rewrite (wrap64_small (2 ^ k + R)) by lia.
  rewrite (wrap64_small (2 ^ k + R + 2 ^ k)) by lia.
  assert ((2 ^ k + R) mod 2 ^ k = 0) as Hm1.
  { rewrite Z.add_comm, <- Zplus_mod_idemp_r, Z.mod_same, Z.add_0_r by lia. done. }
  assert ((2 ^ k + R + 2 ^ k) mod 2 ^ k = 0) as Hm2.
  { rewrite <- Zplus_mod_idemp_r, Z.mod_same, Z.add_0_r by lia. done. }
  destruct (USE_MPROTECT cfg) eqn:Hmp;
    match goal with |- context [if ?a <=? ?b then Done (Some _) _ else _] =>
      destruct (Z.leb_spec a b) as [Hfit|Hfull]
    end; cbn; try (left; by eexists); right;
    rewrite (wrap64_small (p + 2 ^ k)) by lia;
    try rewrite (wrap64_small (p + 2 ^ k + task_stack_size s)) by lia;
    destruct (USE_MMAP cfg); repeat (cbn; rewrite ?lookup_insert_eq);
    try (match goal with |- context [if ?c then _ else _] => destruct c end;
         repeat (cbn; rewrite ?lookup_insert_eq));
    (do 4 eexists; split; [reflexivity|]; cbn; rewrite lookup_insert_eq;
     split; [reflexivity|]; cbn;
     split; [repeat first [apply list_elem_of_here | apply list_elem_of_further]|];
     repeat split; try done; try lia).
Qed.

Lemma context_allocate_layout_witness :
  exists p s' b,
    dart__tasking__context_allocate guarded_config (state_after_init guarded_config)
      = Done p s' /\
    heap s' !! p = Some b /\
    cl_stack b = p + 2 ^ 12 /\
    cl_ub_guard b = cl_stack b + task_stack_size (state_after_init guarded_config).
Proof.
  destruct (context_allocate_layout guarded_config
              (state_after_init guarded_config) 12)
    as [(msg & H)|(p & s' & b & size & H1 & H2 & _ & _ & _ & _ & _ & _ & _ & H3 & _ & H4 & _)];
    try (by vm_compute).
  exists p, s', b. repeat split; try assumption. by apply H4.
Defined.

(** ** What [create] hands out *)

Lemma read_after_guard_writes (m : gmap Z Z) (lo hi : Z) :
  default 0 (<[hi := STACK_GUARD]> (<[lo := STACK_GUARD]> m) !! lo) = STACK_GUARD /\
  default 0 (<[hi := STACK_GUARD]> (<[lo := STACK_GUARD]> m) !! hi) = STACK_GUARD.
Proof.
  split; [|by rewrite lookup_insert_eq].
  destruct (decide (hi = lo)) as [->|Hne]; [by rewrite lookup_insert_eq|].
  by rewrite lookup_insert_ne, lookup_insert_eq.
Qed.

(** Whichever way [create] obtained the block, the context it returns
    carries the given entry function and argument, is pointed at the
    trampoline, has [length] 0, and in diagnostic builds both sentinels are
    in place. *)
Lemma context_create_result (cfg : config) (fn arg : Z) (s s' : state) (a : Z) :
  dart__tasking__context_create cfg fn arg s = Done (Some a) s' ->
  exists b',
    heap s' !! a = Some b' /\
    ctx_fn (cl_ctx b') = fn /\ ctx_arg (cl_ctx b') = arg /\
    uc_entry (ctx_uc (cl_ctx b')) = true /\
    cl_length b' = 0 /\
    task_stack_size s' = task_stack_size s /\
    (DART_DEBUG cfg = true ->
     read_word s' (ss_sp (ctx_uc (cl_ctx b'))) = STACK_GUARD /\
     read_word s' (wrap64 (wrap64 (ss_sp (ctx_uc (cl_ctx b')) + task_stack_size s')
                           - SIZEOF_UINT64)) = STACK_GUARD).
Proof.
  intros H.
  unfold dart__tasking__context_create, dart__tasking__context_allocate,
    sys_alloc in H.
  destruct (USE_UCONTEXT cfg); [|discriminate].
  munfold. cbn in H.
  destruct (ctxlist s) as [hd|] eqn:Hc; cbn in H.
  - destruct (heap s !! hd) as [hb|] eqn:Hhb; [|discriminate]. cbn in H.
    rewrite !lookup_insert_eq in H. cbn in H.
    destruct (DART_DEBUG cfg); repeat (cbn in H; rewrite ?lookup_insert_eq in H);
      injection H as <- <-; cbn; rewrite lookup_insert_eq;
      (eexists; split; [reflexivity|]; cbn; repeat (split; [reflexivity|]);
       intros ?; first [discriminate | apply read_after_guard_writes]).
  - match type of H with context [if ?c then Done (Some _) _ else _] =>
      destruct c
    end; cbn in H; [|discriminate].
    destruct (USE_MMAP cfg), (USE_MPROTECT cfg), (DART_DEBUG cfg);
      repeat (cbn in H; rewrite ?lookup_insert_eq in H);
      try (match type of H with context [if ?c then _ else _] => destruct c end;
           repeat (cbn in H; rewrite ?lookup_insert_eq in H));
      injection H as <- <-; cbn; rewrite lookup_insert_eq;
      (eexists; split; [reflexivity|]; cbn; repeat (split; [reflexivity|]);
       intros ?; first [discriminate | apply read_after_guard_writes]).
Qed.

(** ** First activation through [invoke] *)

Lemma bind_assoc_at {A B C} (m : M A) (f : A -> M B) (g : B -> M C) (s : state) :
  mbind g (mbind f m) s = mbind (fun x => mbind g (f x)) m s.
Proof. unfold mbind, M_bind. by destruct (m s). Qed.

(** A context with a pending entry function, pointed at the trampoline:
    [invoke] queues it, the trampoline takes it back off the list and calls
    its function with its argument. At the call the list is as it was
    before [invoke], the two fields of the block are null, and no other
    block has changed. *)
Lemma invoke_enters_own_trampoline (call : Z -> Z -> M unit) (cfg : config)
    (s : state) (ctx : Z) (b : context_list_s) :
  USE_UCONTEXT cfg = true ->
  heap s !! ctx = Some b ->
  ctx_fn (cl_ctx b) <> NULL ->
  uc_entry (ctx_uc (cl_ctx b)) = true ->
  exists s1 b1,
    dart__tasking__context_invoke (setcontext_enters call) cfg ctx s
    = (call (ctx_fn (cl_ctx b)) (ctx_arg (cl_ctx b)) ≫= fun _ =>
         abort "task context invocation function returned!") s1 /\
    ctxlist s1 = ctxlist s /\
    heap s1 !! ctx = Some b1 /\
    ctx_fn (cl_ctx b1) = NULL /\ ctx_arg (cl_ctx b1) = NULL /\
    cl_stack b1 = cl_stack b /\
    (forall q, q <> ctx -> heap s1 !! q = heap s !! q) /\
    log s1 = log s.
Proof.
  intros Hu Hb Hfn Hent.
  set (b' := set_next (ctxlist s) b).
  set (s0 := set_ctxlist (Some ctx) (set_heap (<[ctx := b']> (heap s)) s)).
  assert (heap s0 !! ctx = Some b') as Hb0 by (cbn; by rewrite lookup_insert_eq).
  pose proof (context_entry_fetch_done s0 ctx b' eq_refl Hb0) as Hf.
  exists (set_heap (<[ctx := set_ctx (set_fn_arg NULL NULL (cl_ctx b')) b']> (heap s0))
            (set_ctxlist (cl_next b') s0)),
         (set_ctx (set_fn_arg NULL NULL (cl_ctx b')) b').
  split; [|cbn; rewrite lookup_insert_eq;
    repeat (split; [reflexivity|]); split; [|done];
    intros q Hq; by rewrite !lookup_insert_ne].
  unfold dart__tasking__context_invoke. rewrite Hu.
  rewrite (bind_done _ _ _ _ _ (load_done _ _ _ Hb)).
  destruct (Z.eqb_spec (ctx_fn (cl_ctx b)) NULL) as [|_]; [done|]. cbn [negb].
  assert (DART_STACK_PUSH ctx s = Done tt s0) as Hpush.
  { unfold DART_STACK_PUSH. munfold. by rewrite Hb. }
  rewrite (bind_done _ _ _ _ _ Hpush).
  unfold setcontext_enters. rewrite bind_assoc_at.
  rewrite (bind_done _ _ _ _ _ (load_done _ _ _ Hb0)).
  change (uc_entry (ctx_uc (cl_ctx b'))) with (uc_entry (ctx_uc (cl_ctx b))).
  rewrite Hent. unfold dart__tasking__context_entry.
  rewrite !bind_assoc_at. rewrite (bind_done _ _ _ _ _ Hf).
  unfold mbind, M_bind, abort, DART_ASSERT_MSG, mret, M_ret.
  by destruct (call _ _ _) as [[] s2| | | |].
Qed.

(** X3: a context that [create] returned for a non-null entry function
    [fn] and argument [arg], when given to [invoke], reaches the call
    [fn(arg)]: the trampoline takes exactly this context off the thread's
    list. At the call the list is as it was before [invoke], the block's
    two fields are null and no other block has changed; if the call
    returns, the process is aborted. *)
Theorem create_then_invoke_calls_entry (call : Z -> Z -> M unit) (cfg : config)
    (fn arg : Z) (s s' : state) (a : Z) :
  dart__tasking__context_create cfg fn arg s = Done (Some a) s' ->
  fn <> NULL ->
  exists s1 b1,
    dart__tasking__context_invoke (setcontext_enters call) cfg a s'
    = (call fn arg ≫= fun _ =>
         abort "task context invocation function returned!") s1 /\
    ctxlist s1 = ctxlist s' /\
    heap s1 !! a = Some b1 /\
    ctx_fn (cl_ctx b1) = NULL /\ ctx_arg (cl_ctx b1) = NULL /\
    (forall q, q <> a -> heap s1 !! q = heap s' !! q) /\
    log s1 = log s'.
Proof.
  intros Hcr Hfn.
  assert (USE_UCONTEXT cfg = true) as Hu.
  { unfold dart__tasking__context_create in Hcr.
    by destruct (USE_UCONTEXT cfg). }
  destruct (context_create_result cfg fn arg s s' a Hcr)
    as (b' & Hb' & Hf & Ha & Hent & _).
  destruct (invoke_enters_own_trampoline call cfg s' a b' Hu Hb'
              ltac:(by rewrite Hf) Hent)
    as (s1 & b1 & Hinv & Hc & Hb1 & Hfn1 & Harg1 & _ & Hsame & Hlog).
  exists s1, b1. rewrite Hf, Ha in Hinv. done.
Qed.

Lemma create_then_invoke_calls_entry_witness :
  exists s' s1,
    dart__tasking__context_create (example_config (-1)) 21 22 one_pooled_state
      = Done (Some 4096) s' /\
    dart__tasking__context_invoke (setcontext_enters task_returns)
      (example_config (-1)) 4096 s'
    = Abort "task context invocation function returned!" s1 /\
    ctxlist s1 = None.
Proof.
  destruct (dart__tasking__context_create (example_config (-1)) 21 22
              one_pooled_state) as [[a|] s'| | | |] eqn:Hcr;
    try (by vm_compute in Hcr).
  assert (a = 4096) as -> by (vm_compute in Hcr; by injection Hcr).
  destruct (create_then_invoke_calls_entry task_returns (example_config (-1))
              21 22 one_pooled_state s' 4096 Hcr ltac:(done))
    as (s1 & b1 & Hinv & Hc & _).
  exists s', s1. split; [reflexivity|]. split; [exact Hinv|].
  rewrite Hc. vm_compute in Hcr. by injection Hcr as <-.
Defined.

(** X4: [invoke] does not queue a context whose entry function is null.
    The trampoline it starts then fails its assertion when the thread's
    list is empty, and otherwise takes the block at the head of that list,
    which is a pooled block, and calls the function stored there. *)
Theorem invoke_without_entry_function (call : Z -> Z -> M unit) (cfg : config)
    (s : state) (ctx : Z) (b : context_list_s) :
  USE_UCONTEXT cfg = true ->
  heap s !! ctx = Some b ->
  ctx_fn (cl_ctx b) = NULL ->
  uc_entry (ctx_uc (cl_ctx b)) = true ->
  (ctxlist s = None ->
   dart__tasking__context_invoke (setcontext_enters call) cfg ctx s
   = Abort "Assertion failed: ctxlist != NULL" s) /\
  (forall hd hb,
     ctxlist s = Some hd -> heap s !! hd = Some hb ->
     dart__tasking__context_invoke (setcontext_enters call) cfg ctx s
     = (call (ctx_fn (cl_ctx hb)) (ctx_arg (cl_ctx hb)) ≫= fun _ =>
          abort "task context invocation function returned!")
         (set_heap (<[hd := set_ctx (set_fn_arg NULL NULL (cl_ctx hb)) hb]> (heap s))
            (set_ctxlist (cl_next hb) s))).
Proof.
  intros Hu Hb Hfn Hent.
  assert (dart__tasking__context_invoke (setcontext_enters call) cfg ctx s
          = ((dart__tasking__context_entry call;; mret 0) ≫= (fun _ : Z => mret tt)) s)
    as Hinv.
  { unfold dart__tasking__context_invoke. rewrite Hu.
    rewrite (bind_done _ _ _ _ _ (load_done _ _ _ Hb)).
    rewrite Hfn. cbn [Z.eqb NULL negb].
    unfold mbind at 1, M_bind at 1, mret at 1, M_ret at 1.
    unfold setcontext_enters. rewrite bind_assoc_at.
    rewrite (bind_done _ _ _ _ _ (load_done _ _ _ Hb)). by rewrite Hent. }
  split.
  - intros Hc. rewrite Hinv. unfold dart__tasking__context_entry, context_entry_fetch.
    munfold. cbn. by rewrite Hc.
  - intros hd hb Hc Hhb. rewrite Hinv. unfold dart__tasking__context_entry.
    rewrite !bind_assoc_at.
    rewrite (bind_done _ _ _ _ _ (context_entry_fetch_done s hd hb Hc Hhb)).
    unfold mbind, M_bind, abort, DART_ASSERT_MSG, mret, M_ret.
    by destruct (call _ _ _) as [[] s2| | | |].
Qed.

Lemma invoke_without_entry_function_witness :
  dart__tasking__context_invoke (setcontext_enters task_returns)
    (example_config (-1)) 4096
    (set_ctxlist None
       (set_heap {[ 4096 := one_block NULL 8 0 None ]} one_pooled_state))
  = Abort "Assertion failed: ctxlist != NULL"
      (set_ctxlist None
         (set_heap {[ 4096 := one_block NULL 8 0 None ]} one_pooled_state)).
Proof.
  exact (proj1 (invoke_without_entry_function task_returns (example_config (-1))
                  (set_ctxlist None
                     (set_heap {[ 4096 := one_block NULL 8 0 None ]} one_pooled_state))
                  4096 (one_block NULL 8 0 None) eq_refl eq_refl eq_refl eq_refl)
           eq_refl).
Defined.

(** ** Sentinels right after [create] *)

(** X5: on a context that [create] has just returned, in a diagnostic
    build both sentinel words, the one at the lowest address of the stack
    and the one eight bytes below its highest, read back as the guard
    value; and in every build the sentinel check that [release] starts
    with passes silently: nothing is logged and the state is unchanged. *)
Theorem create_then_guard_check_silent (cfg : config) (fn arg : Z)
    (s s' : state) (a : Z) :
  dart__tasking__context_create cfg fn arg s = Done (Some a) s' ->
  exists b,
    heap s' !! a = Some b /\
    (DART_DEBUG cfg = true ->
     read_word s' (ss_sp (ctx_uc (cl_ctx b))) = STACK_GUARD /\
     read_word s' (wrap64 (wrap64 (ss_sp (ctx_uc (cl_ctx b)) + task_stack_size s')
                           - SIZEOF_UINT64)) = STACK_GUARD) /\
    check_stack_guards cfg a s' = Done tt s'.
Proof.
  intros Hcr.
  destruct (context_create_result cfg fn arg s s' a Hcr)
    as (b' & Hb' & _ & _ & _ & _ & _ & Hguard).
  exists b'. split; [exact Hb'|]. split; [exact Hguard|].
  destruct (DART_DEBUG cfg) eqn:Hd.
  - rewrite (check_stack_guards_warns_iff_both cfg s' a b' Hd Hb').
    destruct (Hguard eq_refl) as [-> ->]. by rewrite Z.eqb_refl.
  - unfold check_stack_guards. by rewrite Hd.
Qed.

Lemma create_then_guard_check_silent_witness :
  exists s',
    dart__tasking__context_create (example_config (-1)) 7 8
      (state_after_init (example_config (-1))) = Done (Some 4096) s' /\
    read_word s' 8192 = STACK_GUARD /\
    read_word s' (8192 + 16384 - 8) = STACK_GUARD /\
    check_stack_guards (example_config (-1)) 4096 s' = Done tt s'.
Proof.
  destruct (dart__tasking__context_create (example_config (-1)) 7 8
              (state_after_init (example_config (-1))))
    as [[a|] s'| | | |] eqn:Hcr; try (by vm_compute in Hcr).
  assert (a = 4096) as -> by (vm_compute in Hcr; by injection Hcr).
  destruct (create_then_guard_check_silent _ _ _ _ _ _ Hcr)
    as (b & Hb & Hguard & Hchk).
  exists s'. split; [reflexivity|].
  assert (ss_sp (ctx_uc (cl_ctx b)) = 8192 /\ task_stack_size s' = 16384)
    as [Hsp Hts].
  { vm_compute in Hcr. injection Hcr as <-. vm_compute in Hb.
    injection Hb as <-. by split. }
  destruct (Hguard eq_refl) as [Hlo Hhi].
  rewrite Hsp in Hlo. rewrite Hsp, Hts in Hhi.
  clear Hcr. split; [exact Hlo|]. split; [exact Hhi|exact Hchk].
Defined.

(** ** Release followed by create *)

Lemma check_stack_guards_only_logs (cfg : config) (s : state) (ctx : Z)
    (b : context_list_s) :
  heap s !! ctx = Some b ->
  check_stack_guards cfg ctx s = Done tt s \/
  check_stack_guards cfg ctx s = Done tt (emit (EvWarn stack_overflow_warning) s).
Proof.
  intros Hb. unfold check_stack_guards. munfold.
  destruct (DART_DEBUG cfg); [|by left]. rewrite Hb.
  match goal with |- context [if ?c then _ else _] => destruct c end; auto.
Qed.

(** The branch of [release] that keeps the block, for any list whose head
    is a block: also when the released block is that head. *)
Lemma context_release_pushes (cfg : config) (s : state) (ctx : Z)
    (b : context_list_s) :
  USE_UCONTEXT cfg = true ->
  heap s !! ctx = Some b ->
  (forall hd, ctxlist s = Some hd -> is_Some (heap s !! hd)) ->
  head_length s <= PER_THREAD_CTX_STORE ->
  exists s1,
    dart__tasking__context_release cfg ctx s = Done tt s1 /\
    heap s1 = <[ctx := set_next (ctxlist s) (set_length (head_length s + 1) b)]> (heap s) /\
    ctxlist s1 = Some ctx /\
    stackmem s1 = stackmem s /\ brk s1 = brk s /\
    task_stack_size s1 = task_stack_size s /\ page_size s1 = page_size s /\
    count_free (log s1) = count_free (log s) /\
    count_alloc (log s1) = count_alloc (log s).
Proof.
  intros Hu Hb Hhead Hlen.
  unfold dart__tasking__context_release. rewrite Hu.
  assert (exists s0, check_stack_guards cfg ctx s = Done tt s0 /\
            heap s0 = heap s /\ ctxlist s0 = ctxlist s /\
            stackmem s0 = stackmem s /\ brk s0 = brk s /\
            task_stack_size s0 = task_stack_size s /\ page_size s0 = page_size s /\
            count_free (log s0) = count_free (log s) /\
            count_alloc (log s0) = count_alloc (log s))
    as (s0 & Hchk & Hh & Hc & Hsm & Hbrk & Hts & Hps & Hcf & Hca).
  { destruct (check_stack_guards_only_logs cfg s ctx b Hb) as [H|H];
      eexists; (split; [exact H|done]). }
  rewrite (bind_done _ _ _ _ _ Hchk).
  rewrite <- Hsm, <- Hbrk, <- Hts, <- Hps, <- Hcf, <- Hca, <- Hh, <- Hc.
  assert (heap s0 !! ctx = Some b) as Hb0 by (by rewrite Hh).
  assert (head_length s = head_length s0) as Hhl
    by (unfold head_length; by rewrite Hh, Hc).
  rewrite Hhl in *. rewrite <- Hh, <- Hc in Hhead.
  clear Hchk Hh Hc Hsm Hbrk Hts Hps Hcf Hca Hb Hhl s.
  unfold head_length in *. munfold. cbn.
  destruct (ctxlist s0) as [hd|] eqn:Hhd.
  - destruct (Hhead hd eq_refl) as [hb Hhb]. rewrite Hhb in *. cbn.
    destruct (Z.gtb_spec (cl_length hb) PER_THREAD_CTX_STORE) as [Hgt|_]; [lia|].
    repeat (cbn; rewrite ?Hhb, ?Hb0, ?lookup_insert_eq).
    eexists. split; [reflexivity|]. cbn. rewrite Hhd.
    by rewrite !insert_insert_eq.
  - repeat (cbn; rewrite ?Hb0, ?lookup_insert_eq).
    eexists. split; [reflexivity|]. cbn. rewrite Hhd.
    by rewrite !insert_insert_eq.
Qed.

(** X6: on a pool of at most [PER_THREAD_CTX_STORE] blocks, a [release]
    followed by a [create] hands the released block straight back: same
    handle, same stack region, [length] 0 and the new entry function and
    argument. The pool is the list it was before, no other block has
    changed, and nothing was allocated or freed. *)
Theorem release_then_create_returns_block (cfg : config) (fn arg : Z)
    (s : state) (ctx : Z) (b : context_list_s) (l : list Z) :
  USE_UCONTEXT cfg = true ->
  pool_inv s l ->
  (length l <= 10)%nat ->
  heap s !! ctx = Some b ->
  ctx ∉ l ->
  exists s1 s2 b2,
    dart__tasking__context_release cfg ctx s = Done tt s1 /\
    dart__tasking__context_create cfg fn arg s1 = Done (Some ctx) s2 /\
    pool_inv s2 l /\
    ctxlist s2 = ctxlist s /\
    heap s2 !! ctx = Some b2 /\
    cl_stack b2 = cl_stack b /\
    ss_sp (ctx_uc (cl_ctx b2)) = ss_sp (ctx_uc (cl_ctx b)) /\
    ss_size (ctx_uc (cl_ctx b2)) = ss_size (ctx_uc (cl_ctx b)) /\
    cl_length b2 = 0 /\
    ctx_fn (cl_ctx b2) = fn /\ ctx_arg (cl_ctx b2) = arg /\
    (forall q, q <> ctx -> heap s2 !! q = heap s !! q) /\
    brk s2 = brk s /\
    count_alloc (log s2) = count_alloc (log s) /\
    count_free (log s2) = count_free (log s).
Proof.
  intros Hu Hinv Hlen Hb Hnl.
  pose proof (pool_inv_head_length s l Hinv) as Hhl.
  assert (forall hd, ctxlist s = Some hd -> is_Some (heap s !! hd)) as Hhead.
  { intros hd Hhd. destruct l as [|a l']; [by rewrite Hinv in Hhd|].
    destruct Hinv as (Hc & hb & Hhb & _). rewrite Hc in Hhd.
    injection Hhd as <-. eauto. }
  destruct (context_release_pushes cfg s ctx b Hu Hb Hhead
              ltac:(unfold PER_THREAD_CTX_STORE; lia))
    as (s1 & Hrel & Hh1 & Hc1 & _ & Hbrk1 & _ & _ & Hcf1 & Hca1).
  set (b1 := set_next (ctxlist s) (set_length (head_length s + 1) b)) in *.
  assert (heap s1 !! ctx = Some b1) as Hb1 by (rewrite Hh1; apply lookup_insert_eq).
  destruct (context_create_pops_head cfg fn arg s1 ctx b1 Hu Hc1 Hb1)
    as (s2 & b2 & Hcr & Hc2 & Hb2 & Hst & Hsp & Hsz & Hl2 & Hfn & Harg & _
        & Hbrk2 & Hlog2 & _ & Hsame).
  exists s1, s2, b2.
  assert (forall q, q <> ctx -> heap s2 !! q = heap s !! q) as Hsame'.
  { intros q Hq. rewrite (Hsame q Hq), Hh1. by rewrite lookup_insert_ne. }
  repeat (split; [done|]).
  split; [|repeat split; try done; congruence].
  unfold pool_inv. rewrite Hc2. change (cl_next b1) with (ctxlist s).
  apply (pool_rep_frame (heap s)); [exact Hinv|].
  intros q Hq. apply Hsame'. by intros ->.
Qed.

Lemma release_then_create_returns_block_witness :
  exists s1 s2,
    dart__tasking__context_release (example_config (-1)) 4096 two_fresh_state
      = Done tt s1 /\
    dart__tasking__context_create (example_config (-1)) 21 22 s1
      = Done (Some 4096) s2 /\
    ctxlist s2 = None.
Proof.
  destruct (release_then_create_returns_block (example_config (-1)) 21 22
              two_fresh_state 4096 (one_block 7 8 0 None) [])
    as (s1 & s2 & b2 & Hrel & Hcr & _ & Hc & _);
    [reflexivity | reflexivity | cbn; lia | reflexivity | apply not_elem_of_nil |].
  by exists s1, s2.
Defined.

(** ** Releasing a block twice *)

(** X7: [release] does not notice a block that is already at the head of
    the pool. Releasing it again links the block to itself, so the pool is
    no longer a finite list, and a later [cleanup] frees the block and then
    reads it again. *)
Theorem double_release_ties_a_knot (cfg : config) (s : state) (ctx : Z)
    (b : context_list_s) (fuel : nat) :
  USE_UCONTEXT cfg = true ->
  ctxlist s = Some ctx ->
  heap s !! ctx = Some b ->
  cl_length b <= PER_THREAD_CTX_STORE ->
  exists s1 b1,
    dart__tasking__context_release cfg ctx s = Done tt s1 /\
    ctxlist s1 = Some ctx /\
    heap s1 !! ctx = Some b1 /\
    cl_next b1 = Some ctx /\
    cl_length b1 = cl_length b + 1 /\
    pool_walk fuel (heap s1) (ctxlist s1) = None /\
    dart__tasking__context_cleanup cfg (S (S fuel)) s1 = Fault.
Proof.
  intros Hu Hc Hb Hlen.
  assert (head_length s = cl_length b) as Hhl
    by (unfold head_length; by rewrite Hc, Hb).
  destruct (context_release_pushes cfg s ctx b Hu Hb) as (s1 & Hrel & Hh & Hc1 & _).
  { intros hd Hhd. rewrite Hc in Hhd. injection Hhd as <-. eauto. }
  { by rewrite Hhl. }
  rewrite Hc, Hhl in Hh.
  set (b1 := set_next (Some ctx) (set_length (cl_length b + 1) b)) in *.
  assert (heap s1 !! ctx = Some b1) as Hb1 by (rewrite Hh; apply lookup_insert_eq).
  exists s1, b1. repeat (split; [done|]). split.
  - rewrite Hc1. clear -Hb1. induction fuel as [|fuel IH]; [done|].
    cbn. rewrite Hb1. change (cl_next b1) with (Some ctx). by rewrite IH.
  - unfold dart__tasking__context_cleanup. rewrite Hu.
    destruct (context_free_done cfg (set_ctxlist (Some ctx) s1) ctx b1 Hb1)
      as (s2 & Hfree & Hh2 & Hc2 & _).
    assert (cleanup_loop cfg (S (S fuel)) s1
            = cleanup_loop cfg (S fuel) s2) as ->.
    { cbn. unfold DART_STACK_POP.
      unfold mbind at 1, M_bind at 1, get at 1. rewrite Hc1.
      unfold mbind at 1, M_bind at 1.
      unfold mbind at 1, M_bind at 1.
      unfold mbind at 1, M_bind at 1, get at 1. rewrite Hc1.
      unfold mbind at 1, M_bind at 1. rewrite (load_done _ _ _ Hb1).
      unfold mbind at 1, M_bind at 1, modify at 1, mret, M_ret.
      change (cl_next b1) with (Some ctx). by rewrite Hfree. }
    cbn. unfold DART_STACK_POP. munfold. cbn. rewrite Hc2. cbn.
    rewrite Hc2. cbn. rewrite Hh2. cbn. by rewrite lookup_delete_eq.
Qed.

Lemma double_release_ties_a_knot_witness :
  exists s1,
    dart__tasking__context_release (example_config (-1)) 4096 one_idle_state
      = Done tt s1 /\
    pool_walk 5 (heap s1) (ctxlist s1) = None /\
    dart__tasking__context_cleanup (example_config (-1)) 7 s1 = Fault.
Proof.
  destruct (double_release_ties_a_knot (example_config (-1)) one_idle_state 4096
              (one_block NULL NULL 1 None) 5)
    as (s1 & b1 & Hrel & _ & _ & _ & _ & Hwalk & Hclean);
    [reflexivity | reflexivity | reflexivity | by vm_compute |].
  by exists s1.
Defined.

(** ** Cleanup *)

Lemma context_free_frees (cfg : config) (s : state) (p : Z) (b : context_list_s) :
  heap s !! p = Some b ->
  exists s',
    dart__tasking__context_free cfg p s = Done tt s' /\
    heap s' = delete p (heap s) /\ ctxlist s' = ctxlist s /\
    brk s' = brk s /\
    count_free (log s') = S (count_free (log s)) /\
    count_alloc (log s') = count_alloc (log s).
Proof.
  intros Hb. unfold dart__tasking__context_free. munfold.
  destruct (USE_MPROTECT cfg); repeat (cbn; rewrite ?Hb).
  - destruct (mprotect_ret cfg (cl_ub_guard b) =? 0); repeat (cbn; rewrite ?Hb);
      by eexists.
  - by eexists.
Qed.

Lemma cleanup_loop_frees (cfg : config) (l : list Z) :
  forall (s : state) (fuel : nat),
    pool_inv s l -> (length l <= fuel)%nat ->
    exists s',
      cleanup_loop cfg fuel s = Done tt s' /\
      ctxlist s' = None /\
      (forall q, q ∉ l -> heap s' !! q = heap s !! q) /\
      (forall q, q ∈ l -> heap s' !! q = None) /\
      brk s' = brk s /\
      count_free (log s') = (count_free (log s) + length l)%nat /\
      count_alloc (log s') = count_alloc (log s).
Proof.
  induction l as [|a l IH]; intros s fuel Hinv Hfuel.
  - change (ctxlist s = None) in Hinv.
    exists s. split; [|repeat split; try done; try (cbn; lia)].
    + destruct fuel; cbn; unfold mbind, M_bind, get; by rewrite Hinv.
    + intros q Hq. by apply elem_of_nil in Hq.
  - destruct fuel as [|fuel]; [cbn in Hfuel; lia|].
    pose proof (pool_rep_head_fresh _ _ _ _ Hinv) as Hfresh.
    destruct Hinv as (Hc & hb & Hhb & Hlen & Hrest).
    set (s_a := set_ctxlist (cl_next hb) s).
    destruct (context_free_frees cfg s_a a hb Hhb)
      as (s1 & Hf & Hh1 & Hc1 & Hbrk1 & Hl1 & Ha1).
    assert (pool_inv s1 l) as Hinv1.
    { unfold pool_inv. rewrite Hh1, Hc1. cbn.
      apply (pool_rep_frame (heap s)); [done|].
      intros q Hq. apply lookup_delete_ne. by intros ->. }
    destruct (IH s1 fuel Hinv1 ltac:(cbn in Hfuel; lia))
      as (s' & Hrun & Hc' & Hkeep & Hgone & Hbrk' & Hcount & Hacount).
    exists s'. split; [|split; [done|repeat split]].
    + cbn. unfold DART_STACK_POP.
      unfold mbind at 1, M_bind at 1, get at 1. rewrite Hc.
      unfold mbind at 1, M_bind at 1.
      unfold mbind at 1, M_bind at 1.
      unfold mbind at 1, M_bind at 1, get at 1. rewrite Hc.
      unfold mbind at 1, M_bind at 1. rewrite (load_done _ _ _ Hhb).
      unfold mbind at 1, M_bind at 1, modify at 1, mret, M_ret.
      fold s_a. rewrite Hf. exact Hrun.
    + intros q Hq. apply not_elem_of_cons in Hq as [Hqa Hq].
      rewrite (Hkeep q Hq), Hh1. cbn. by apply lookup_delete_ne.
    + intros q Hq. apply elem_of_cons in Hq as [->|Hq].
      * rewrite (Hkeep a Hfresh), Hh1. apply lookup_delete_eq.
      * by apply Hgone.
    + by rewrite Hbrk', Hbrk1.
    + rewrite Hcount, Hl1. change (log s_a) with (log s).
      change (length (a :: l)) with (S (length l)). lia.
    + by rewrite Hacount, Ha1.
Qed.

(** X8: on a well-formed pool, [cleanup] terminates as soon as it is given
    as many iterations as there are pooled blocks. It leaves the pool
    empty, has freed every pooled block exactly once, has touched no other
    block, and a second [cleanup] changes nothing. *)
Theorem context_cleanup_frees_exactly_the_pool (cfg : config) (s : state)
    (l : list Z) (fuel fuel' : nat) :
  USE_UCONTEXT cfg = true ->
  pool_inv s l ->
  (length l <= fuel)%nat ->
  exists s',
    dart__tasking__context_cleanup cfg fuel s = Done tt s' /\
    ctxlist s' = None /\
    (forall q, q ∈ l -> heap s' !! q = None) /\
    (forall q, q ∉ l -> heap s' !! q = heap s !! q) /\
    count_free (log s') = (count_free (log s) + length l)%nat /\
    count_alloc (log s') = count_alloc (log s) /\
    dart__tasking__context_cleanup cfg fuel' s' = Done tt s'.
Proof.
  intros Hu Hinv Hfuel. unfold dart__tasking__context_cleanup. rewrite Hu.
  destruct (cleanup_loop_frees cfg l s fuel Hinv Hfuel)
    as (s' & Hrun & Hc & Hkeep & Hgone & _ & Hcf & Hca).
  exists s'. repeat (split; [done|]).
  destruct fuel'; cbn; unfold mbind, M_bind, get; by rewrite Hc.
Qed.

Lemma context_cleanup_frees_exactly_the_pool_witness :
  exists s',
    dart__tasking__context_cleanup (example_config (-1)) 1 one_idle_state
      = Done tt s' /\
    ctxlist s' = None /\
    heap s' !! 4096 = None /\
    count_free (log s') = 1%nat.
Proof.
  destruct (context_cleanup_frees_exactly_the_pool (example_config (-1))
              one_idle_state [4096] 1 0)
    as (s' & Hrun & Hc & Hgone & _ & Hcf & _).
  - reflexivity.
  - split; [reflexivity|]. exists (one_block NULL NULL 1 None).
    split; [reflexivity|]. split; reflexivity.
  - cbn. lia.
  - exists s'. split; [exact Hrun|]. split; [exact Hc|].
    split; [apply Hgone, list_elem_of_here|exact Hcf].
Defined.

(** ** Accounting for every block *)




Section HeldHandles.

Implicit Types (held : list Z) (ctx q : Z).





End HeldHandles.





(** ** The bound on the pool *)

(** X10: along every run that starts with an empty pool, the pool holds at
    most [PER_THREAD_CTX_STORE + 1] blocks and the head block's [length]
    never exceeds that number. *)
Theorem pool_never_exceeds_store_plus_one
    (cfg : config) (ops : list pool_op) (s0 s : state) (held : list Z) :
  ctxlist s0 = None ->
  run_ops cfg ops (s0, []) = Some (s, held) ->
  exists n,
    pool_size s = Some n /\
    Z.of_nat n <= PER_THREAD_CTX_STORE + 1 /\
    head_length s <= PER_THREAD_CTX_STORE + 1.
Proof.
  intros Hc Hrun.
  assert (run_inv (s0, [])) as Hinv0.
  { exists []. split; [exact Hc|]. split; [cbn; lia|].
    cbn. intros a Ha. by apply elem_of_nil in Ha. }
  destruct (run_ops_preserves cfg ops _ _ Hinv0 Hrun) as (l & Hinv & Hbound & _).
  cbn [fst snd] in *.
  exists (length l). split; [by apply pool_inv_size|].
  rewrite (pool_inv_head_length _ _ Hinv). unfold PER_THREAD_CTX_STORE. lia.
Qed.

Lemma pool_never_exceeds_store_plus_one_witness :
  exists s held n,
    create_then_release 12 = Some (s, held) /\
    pool_size s = Some n /\
    Z.of_nat n <= PER_THREAD_CTX_STORE + 1.
Proof.
  destruct (create_then_release 12) as [[s held]|] eqn:Hrun;
    [|by vm_compute in Hrun].
  destruct (pool_never_exceeds_store_plus_one (example_config (-1))
              (repeat (OpCreate 7 8) 12 ++ List.map OpRelease (block_addrs 12))
              (state_after_init (example_config (-1))) s held eq_refl Hrun)
    as (n & Hsize & Hle & _).
  clear Hrun. exists s, held, n. split; [reflexivity|]. split; assumption.
Defined.

(** ** What [create] can return *)

(** X11: in a build with ucontext support, on a thread whose list is
    empty or starts at a block, [create] never returns a null handle and
    never dereferences a stray pointer. It returns a block of the heap
    that carries the given function and argument and has [length] 0, or,
    only when the list is empty, it aborts and leaves the state as it
    found it. *)
Theorem create_returns_block_or_aborts (cfg : config) (fn arg : Z) (s : state) :
  USE_UCONTEXT cfg = true ->
  (forall hd, ctxlist s = Some hd -> is_Some (heap s !! hd)) ->
  (exists a s' b,
     dart__tasking__context_create cfg fn arg s = Done (Some a) s' /\
     heap s' !! a = Some b /\
     ctx_fn (cl_ctx b) = fn /\ ctx_arg (cl_ctx b) = arg /\
     cl_length b = 0) \/
  (exists msg,
     dart__tasking__context_create cfg fn arg s = Abort msg s /\
     ctxlist s = None).
Proof.
  intros Hu Hhead.
  assert (exists a s', dart__tasking__context_create cfg fn arg s = Done (Some a) s' \/
            (exists msg, dart__tasking__context_create cfg fn arg s = Abort msg s
                         /\ ctxlist s = None)) as (a & s' & [Hcr|Hab]).
  { destruct (ctxlist s) as [hd|] eqn:Hc.
    - destruct (Hhead hd eq_refl) as [hb Hhb].
      destruct (context_create_pops_head cfg fn arg s hd hb Hu Hc Hhb)
        as (s' & _ & Hcr & _). exists hd, s'. by left.
    - destruct (context_create_allocates cfg fn arg s Hu Hc)
        as [(msg & Hab)|(a & s' & Hcr & _)].
      + exists 0, s. right. by exists msg.
      + exists a, s'. by left. }
  - left. destruct (context_create_result cfg fn arg s s' a Hcr)
      as (b & Hb & Hf & Ha & _ & Hl & _).
    by exists a, s', b.
  - by right.
Qed.

Lemma create_returns_block_or_aborts_witness :
  exists s' b,
    dart__tasking__context_create (example_config (-1)) 21 22 one_pooled_state
      = Done (Some 4096) s' /\
    heap s' !! 4096 = Some b /\ ctx_fn (cl_ctx b) = 21.
Proof.
  destruct (create_returns_block_or_aborts (example_config (-1)) 21 22
              one_pooled_state eq_refl)
    as [(a & s' & b & Hcr & Hb & Hf & _)|(msg & _ & Hc)].
  - intros hd Hhd. injection Hhd as <-. by eexists.
  - assert (a = 4096) as ->.
    { vm_compute in Hcr. by injection Hcr. }
    by exists s', b.
  - discriminate Hc.
Defined.

(** ** Size adjustment, continued *)

(** X12: for power-of-two pages and sizes whose adjustment does not wrap
    around, the adjusted size is the least multiple of the page size that
    is at least the request: it is a multiple of the page size, it is at
    least the request, and it is at most every multiple of the page size
    that is at least the request. Adjusting is monotone, and adjusting
    twice is adjusting once. *)
Theorem adjust_size_least_multiple (k x y : Z) :
  0 <= k < 64 -> 0 <= x <= y -> y + 2 ^ k - 1 < SIZE_MOD ->
  dart__tasking__context_adjust_size (2 ^ k) x mod 2 ^ k = 0 /\
  x <= dart__tasking__context_adjust_size (2 ^ k) x /\
  (forall m, m mod 2 ^ k = 0 -> x <= m ->
             dart__tasking__context_adjust_size (2 ^ k) x <= m) /\
  dart__tasking__context_adjust_size (2 ^ k) x
    <= dart__tasking__context_adjust_size (2 ^ k) y /\
  dart__tasking__context_adjust_size (2 ^ k)
    (dart__tasking__context_adjust_size (2 ^ k) x)
  = dart__tasking__context_adjust_size (2 ^ k) x.
Proof.
  intros Hk Hxy Hov. pose proof (pow2_lt_size_mod k Hk) as [HP HPlt].
  pose proof (adjust_size_bounds k x Hk ltac:(lia) ltac:(lia)) as [Hxm Hxb].
  pose proof (adjust_size_bounds k y Hk ltac:(lia) ltac:(lia)) as [Hym Hyb].
  assert (forall m, m mod 2 ^ k = 0 -> x <= m ->
            dart__tasking__context_adjust_size (2 ^ k) x <= m) as Hleast.
  { intros m Hm Hle.
    set (r := dart__tasking__context_adjust_size (2 ^ k) x) in *.
    set (P := 2 ^ k) in *.
    pose proof (Z.div_mod m P ltac:(lia)) as Hdm. rewrite Hm in Hdm.
    pose proof (Z.div_mod r P ltac:(lia)) as Hdr. rewrite Hxm in Hdr.
    destruct (Z_le_gt_dec r m) as [|Hgt]; [done|].
    assert (m / P < r / P) by nia. nia. }
  split; [exact Hxm|]. split; [lia|].
  split; [exact Hleast|]. split.
  - apply Hleast; [done|lia].
  - apply adjust_size_page_multiple; try done; [lia|].
    set (r := dart__tasking__context_adjust_size (2 ^ k) x) in *.
    set (P := 2 ^ k) in *.
    assert (SIZE_MOD mod P = 0) as Hsm.
    { unfold SIZE_MOD, P. replace 64 with ((64 - k) + k) by lia.
      rewrite Z.pow_add_r by lia. apply Z.mod_mul. lia. }
    pose proof (Z.div_mod SIZE_MOD P ltac:(lia)) as Hds. rewrite Hsm in Hds.
    pose proof (Z.div_mod r P ltac:(lia)) as Hdr. rewrite Hxm in Hdr.
    assert (r / P < SIZE_MOD / P) by nia. nia.
Qed.

Lemma adjust_size_least_multiple_witness :
  dart__tasking__context_adjust_size (2 ^ 12) 5000 mod 2 ^ 12 = 0 /\
  5000 <= dart__tasking__context_adjust_size (2 ^ 12) 5000 /\
  dart__tasking__context_adjust_size (2 ^ 12) 5000 <= 2 * 2 ^ 12 /\
  dart__tasking__context_adjust_size (2 ^ 12) 5000
    <= dart__tasking__context_adjust_size (2 ^ 12) 9000 /\
  dart__tasking__context_adjust_size (2 ^ 12)
    (dart__tasking__context_adjust_size (2 ^ 12) 5000)
  = dart__tasking__context_adjust_size (2 ^ 12) 5000.
Proof.
  destruct (adjust_size_least_multiple 12 5000 9000) as (H0 & H1 & H2 & H3 & H4);
    [lia | lia | unfold SIZE_MOD; lia |].
  repeat split; try assumption.
  apply H2; [apply Z.mod_mul|]; lia.
Defined.

(** ** Runs never go wrong *)

(** X13: in a build with ucontext support, after any run that starts with
    an empty pool, releasing a handle the scheduler holds returns
    normally, [cleanup] returns normally within as many iterations as the
    heap has blocks, and [create] returns a handle or aborts on exhausted
    memory: none of them dereferences a stray pointer. *)
Theorem run_operations_never_fault
    (cfg : config) (ops : list pool_op) (s0 s : state) (held : list Z) :
  USE_UCONTEXT cfg = true ->
  ctxlist s0 = None ->
  run_ops cfg ops (s0, []) = Some (s, held) ->
  (forall ctx, ctx ∈ held ->
     exists s', dart__tasking__context_release cfg ctx s = Done tt s') /\
  (exists s', dart__tasking__context_cleanup cfg (size (heap s)) s = Done tt s' /\
              ctxlist s' = None) /\
  (forall fn arg,
     (exists a s', dart__tasking__context_create cfg fn arg s = Done (Some a) s') \/
     (exists msg, dart__tasking__context_create cfg fn arg s = Abort msg s)).
Proof.
  intros Hu Hc Hrun.
  assert (run_inv (s0, [])) as Hinv0.
  { exists []. split; [exact Hc|]. split; [cbn; lia|].
    cbn. intros a Ha. by apply elem_of_nil in Ha. }
  destruct (run_ops_preserves cfg ops _ _ Hinv0 Hrun) as (l & Hinv & _ & Hheld).
  cbn [fst snd] in *. split; [|split].
  - intros ctx Hin. destruct (Hheld ctx Hin) as [Hnl [b Hb]].
    destruct (context_release_pool cfg s ctx b l Hu Hinv Hb Hnl) as (s' & Hrel & _).
    by exists s'.
  - destruct (context_cleanup_drains cfg s l Hu Hinv) as (s' & Hcl & Hinv' & _).
    by exists s'.
  - intros fn arg. destruct l as [|hd l'].
    + destruct (context_create_allocates cfg fn arg s Hu Hinv)
        as [(msg & Hab)|(a & s' & Hcr & _)]; [right|left]; eauto.
    + destruct Hinv as (Hhd & hb & Hhb & _).
      destruct (context_create_pops_head cfg fn arg s hd hb Hu Hhd Hhb)
        as (s' & _ & Hcr & _). left. eauto.
Qed.

Lemma run_operations_never_fault_witness :
  exists s held,
    run_ops (example_config (-1)) mixed_ops
      (state_after_init (example_config (-1)), []) = Some (s, held) /\
    exists s', dart__tasking__context_cleanup (example_config (-1))
                 (size (heap s)) s = Done tt s' /\ ctxlist s' = None.
Proof.
  destruct (run_ops (example_config (-1)) mixed_ops
              (state_after_init (example_config (-1)), []))
    as [[s held]|] eqn:Hrun; [|by vm_compute in Hrun].
  destruct (run_operations_never_fault (example_config (-1)) mixed_ops
              (state_after_init (example_config (-1))) s held
              eq_refl eq_refl Hrun) as (_ & Hclean & _).
  clear Hrun. exists s, held. split; [reflexivity|exact Hclean].
Defined.

(** ** First activation through [swap] *)

(** X14: [swap] from one context into a different one that still has its
    entry function pending reaches the call of that function with its
    argument. At the call the thread's list is as it was before [swap],
    the entry function of both contexts is null, and no block other than
    the two has changed; if the call returns the process aborts. *)
Theorem swap_first_activation_calls_entry (call : Z -> Z -> M unit)
    (cfg : config) (s : state) (old_ctx new_ctx : Z) (ob nb : context_list_s) :
  USE_UCONTEXT cfg = true ->
  old_ctx <> new_ctx ->
  heap s !! old_ctx = Some ob ->
  heap s !! new_ctx = Some nb ->
  ctx_fn (cl_ctx nb) <> NULL ->
  uc_entry (ctx_uc (cl_ctx nb)) = true ->
  exists s1 ob1 nb1,
    dart__tasking__context_swap (swapcontext_enters call) cfg old_ctx new_ctx s
    = (call (ctx_fn (cl_ctx nb)) (ctx_arg (cl_ctx nb)) ≫= fun _ =>
         abort "task context invocation function returned!") s1 /\
    ctxlist s1 = ctxlist s /\
    heap s1 !! old_ctx = Some ob1 /\ ctx_fn (cl_ctx ob1) = NULL /\
    heap s1 !! new_ctx = Some nb1 /\
    ctx_fn (cl_ctx nb1) = NULL /\ ctx_arg (cl_ctx nb1) = NULL /\
    (forall q, q <> old_ctx -> q <> new_ctx -> heap s1 !! q = heap s !! q).
Proof.
  intros Hu Hne Ho Hn Hfn Hent.
  assert (new_ctx <> old_ctx) as Hne' by congruence.
  unfold dart__tasking__context_swap, context_swap_prepare, swapcontext_enters,
    setcontext_enters, dart__tasking__context_entry, context_entry_fetch,
    context_swap_result.
  rewrite Hu. munfold. cbn. rewrite Hn. cbn.
  destruct (Z.eqb_spec (ctx_fn (cl_ctx nb)) NULL) as [|_]; [done|]. cbn.
  rewrite Hn. cbn. rewrite lookup_insert_ne by done. rewrite Ho. cbn.
  destruct (Z.eqb_spec (ctx_fn (cl_ctx ob)) NULL) as [Hof|Hof];
    repeat (cbn; rewrite ?Ho, ?Hn, ?Hent, ?lookup_insert_eq;
            rewrite ?lookup_insert_ne by done);
    match goal with |- context [call ?f ?a ?S] => exists S end;
    (do 2 eexists; split;
     [by destruct (call _ _ _) as [[] s2| | | |]|]; cbn;
     repeat (rewrite ?lookup_insert_eq; rewrite ?lookup_insert_ne by done);
     repeat (split; [done|]);
     intros q Hq1 Hq2; by rewrite !lookup_insert_ne).
Qed.

Lemma swap_first_activation_calls_entry_witness :
  exists s1,
    dart__tasking__context_swap (swapcontext_enters task_returns)
      (example_config (-1)) 4096 24576 two_fresh_state
    = Abort "task context invocation function returned!" s1 /\
    ctxlist s1 = None.
Proof.
  destruct (swap_first_activation_calls_entry task_returns (example_config (-1))
              two_fresh_state 4096 24576
              (one_block 7 8 0 None) (one_block 9 10 0 None))
    as (s1 & ob1 & nb1 & Hsw & Hc & _); try reflexivity; try done.
  by exists s1.
Defined.

(** ** The pool invariant along a run, operation by operation (C9) *)

(** C9: after every run of create, release and cleanup that starts with an
    empty pool, the pool is a well-formed list of some [n] blocks and the
    [length] field of its head block is [n] (0 for the empty pool), and
    each of the three operations keeps it so. A [create] on a non-empty
    pool returns the head block with its [length] set to 0 and leaves a
    pool of [n - 1] blocks whose head has [length] [n - 1]; on an empty
    pool a [create] that returns leaves the pool empty and the new block's
    [length] is 0. A [release] of a held handle stores [n + 1] in the
    block and makes it the head of a pool of [n + 1] blocks, unless the
    head's [length] exceeds [PER_THREAD_CTX_STORE], when the block is
    freed and the pool is unchanged. A [cleanup] leaves the pool empty. *)
Theorem pool_head_length_is_depth
    (cfg : config) (ops : list pool_op) (s0 s : state) (held : list Z) :
  ctxlist s0 = None ->
  run_ops cfg ops (s0, []) = Some (s, held) ->
  exists n,
    pool_size s = Some n /\ head_length s = Z.of_nat n /\
    (USE_UCONTEXT cfg = true -> (0 < n)%nat ->
     forall fn arg,
       exists a s' b',
         dart__tasking__context_create cfg fn arg s = Done (Some a) s' /\
         ctxlist s = Some a /\
         heap s' !! a = Some b' /\ cl_length b' = 0 /\
         pool_size s' = Some (n - 1)%nat /\
         head_length s' = Z.of_nat (n - 1)) /\
    (n = 0%nat ->
     forall fn arg a s',
       dart__tasking__context_create cfg fn arg s = Done (Some a) s' ->
       (exists b', heap s' !! a = Some b' /\ cl_length b' = 0) /\
       pool_size s' = Some 0%nat /\ head_length s' = 0) /\
    (USE_UCONTEXT cfg = true ->
     forall ctx, ctx ∈ held ->
       exists s',
         dart__tasking__context_release cfg ctx s = Done tt s' /\
         if Z.of_nat n >? PER_THREAD_CTX_STORE
         then heap s' !! ctx = None /\
              pool_size s' = Some n /\ head_length s' = Z.of_nat n
         else ctxlist s' = Some ctx /\
              (exists b', heap s' !! ctx = Some b' /\
                          cl_length b' = Z.of_nat n + 1) /\
              pool_size s' = Some (S n) /\
              head_length s' = Z.of_nat (S n)) /\
    (USE_UCONTEXT cfg = true ->
     exists s',
       dart__tasking__context_cleanup cfg (size (heap s)) s = Done tt s' /\
       ctxlist s' = None /\
       pool_size s' = Some 0%nat /\ head_length s' = 0).
Proof.
  intros Hc Hrun.
  assert (run_inv (s0, [])) as Hinv0.
  { exists []. split; [exact Hc|]. split; [cbn; lia|].
    cbn. intros a Ha. by apply elem_of_nil in Ha. }
  destruct (run_ops_preserves cfg ops _ _ Hinv0 Hrun) as (l & Hinv & _ & Hheld).
  cbn [fst snd] in *.
  exists (length l). split; [by apply pool_inv_size|].
  split; [by apply pool_inv_head_length|].
  split; [|split; [|split]].
  - (* create on a non-empty pool *)
    intros Hu Hpos fn arg. destruct l as [|hd l']; [cbn in Hpos; lia|].
    pose proof (pool_rep_head_fresh _ _ _ _ Hinv) as Hfresh.
    destruct Hinv as (Hhd & hb & Hhb & Hlen & Hrest).
    destruct (context_create_pops_head cfg fn arg s hd hb Hu Hhd Hhb)
      as (s' & b' & Hcr & Hc' & Hb' & _ & _ & _ & Hl0 & _ & _ & _ & _ & _ & _ & Hsame).
    assert (pool_inv s' l') as Hinv'.
    { unfold pool_inv. rewrite Hc'.
      apply (pool_rep_frame (heap s)); [done|].
      intros q Hq. apply Hsame. by intros ->. }
    exists hd, s', b'. repeat (split; [done|]).
    change (length (hd :: l') - 1)%nat with (length l' - 0)%nat.
    rewrite Nat.sub_0_r.
    split; [by apply pool_inv_size|by apply pool_inv_head_length].
  - (* create on an empty pool *)
    intros Hn fn arg a s' Hcr. destruct l as [|hd l']; [|discriminate Hn].
    change (ctxlist s = None) in Hinv.
    assert (USE_UCONTEXT cfg = true) as Hu.
    { unfold dart__tasking__context_create in Hcr. by destruct (USE_UCONTEXT cfg). }
    destruct (context_create_result cfg fn arg s s' a Hcr)
      as (b' & Hb' & _ & _ & _ & Hl0 & _).
    destruct (context_create_allocates cfg fn arg s Hu Hinv)
      as [(msg & Hab)|(a2 & s2 & Hcr2 & Hc2 & _)]; [congruence|].
    rewrite Hcr2 in Hcr. injection Hcr as -> ->.
    split; [by exists b'|].
    assert (pool_inv s' []) as Hinv' by exact Hc2.
    split; [exact (pool_inv_size _ _ Hinv')|exact (pool_inv_head_length _ _ Hinv')].
  - (* release *)
    intros Hu ctx Hin. destruct (Hheld ctx Hin) as [Hnl [b Hb]].
    destruct (context_release_pool cfg s ctx b l Hu Hinv Hb Hnl) as (s' & Hrel & Hres).
    exists s'. split; [exact Hrel|].
    destruct (Z.of_nat (length l) >? PER_THREAD_CTX_STORE).
    + destruct Hres as (Hinv' & Hh' & _).
      split; [rewrite Hh'; apply lookup_delete_eq|].
      split; [by apply pool_inv_size|by apply pool_inv_head_length].
    + destruct Hres as (Hinv' & _).
      pose proof (pool_inv_size _ _ Hinv') as Hsz.
      pose proof (pool_inv_head_length _ _ Hinv') as Hhl.
      destruct Hinv' as (Hc' & b' & Hb' & Hl' & _).
      split; [exact Hc'|]. split; [|by split].
      exists b'. split; [exact Hb'|]. rewrite Hl'.
      change (length (ctx :: l)) with (S (length l)). lia.
  - (* cleanup *)
    intros Hu.
    destruct (context_cleanup_drains cfg s l Hu Hinv) as (s' & Hcl & Hinv' & _).
    exists s'. split; [exact Hcl|]. split; [exact Hinv'|].
    split; [exact (pool_inv_size _ _ Hinv')|exact (pool_inv_head_length _ _ Hinv')].
Qed.

Lemma pool_head_length_is_depth_witness :
  exists s held,
    run_ops (example_config (-1)) mixed_ops_with_cleanup
      (state_after_init (example_config (-1)), []) = Some (s, held) /\
    held = [65536] /\
    pool_size s = Some 1%nat /\ head_length s = 1 /\
    (exists a s1 b1,
       dart__tasking__context_create (example_config (-1)) 17 18 s
         = Done (Some a) s1 /\
       ctxlist s = Some a /\ heap s1 !! a = Some b1 /\ cl_length b1 = 0 /\
       pool_size s1 = Some 0%nat /\ head_length s1 = 0) /\
    (exists s2 b2,
       dart__tasking__context_release (example_config (-1)) 65536 s = Done tt s2 /\
       ctxlist s2 = Some 65536 /\
       heap s2 !! 65536 = Some b2 /\ cl_length b2 = 2 /\
       pool_size s2 = Some 2%nat /\ head_length s2 = 2) /\
    (exists s3,
       dart__tasking__context_cleanup (example_config (-1)) (size (heap s)) s
         = Done tt s3 /\
       ctxlist s3 = None /\ pool_size s3 = Some 0%nat /\ head_length s3 = 0).
Proof.
  destruct (run_ops (example_config (-1)) mixed_ops_with_cleanup
              (state_after_init (example_config (-1)), []))
    as [[s held]|] eqn:Hrun; [|by vm_compute in Hrun].
  destruct (pool_head_length_is_depth (example_config (-1)) mixed_ops_with_cleanup
              (state_after_init (example_config (-1))) s held eq_refl Hrun)
    as (n & Hsize & Hhead & Hcreate & _ & Hrelease & Hcleanup).
  assert (held = [65536] /\ pool_size s = Some 1%nat) as [Hheld Hn].
  { vm_compute in Hrun. injection Hrun as <- <-. split; [reflexivity|by vm_compute]. }
  clear Hrun. rewrite Hn in Hsize. injection Hsize as <-. subst held.
  exists s, [65536]. split; [reflexivity|]. split; [reflexivity|].
  split; [exact Hn|]. split; [exact Hhead|]. split; [|split].
  - destruct (Hcreate eq_refl ltac:(lia) 17 18)
      as (a & s1 & b1 & H1 & H2 & H3 & H4 & H5 & H6).
    by exists a, s1, b1.
  - destruct (Hrelease eq_refl 65536 ltac:(apply list_elem_of_here))
      as (s2 & H1 & H2 & (b2 & H3 & H4) & H5 & H6).
    by exists s2, b2.
  - exact (Hcleanup eq_refl).
Defined.
